(** * btc-staker: staking transaction commands and the staker RPC client

    A shallow embedding of
    - [cmd/stakercli/transaction/transactions.go]: flag parsing, parameter
      validation, the create and check commands for phase-1 staking
      transactions, and the JSON input variant;
    - the JSON-RPC client of the staker daemon ([StakerServiceJsonRpcClient]).

    Go values are modelled as follows.  A [string] is a Rocq [string] (a
    sequence of 8-bit characters), a [[]byte] is a [list byte], fixed width
    integers are [Z] with the conversions written out, a pair [(T, error)] is a
    [result T], and a [map[string]interface{}] is a [gmap string iface].
    The packages the commands call into (btcec/schnorr, btcstaking, the wire
    codec, encoding/json, the file system) are an interface, [External],
    over which the commands are defined. *)

From Stdlib Require Import ZArith String Ascii DecimalString.
From Stdlib.Strings Require Import Byte.
From stdpp Require Import base gmap strings list.
From Bignums Require BigN.BigN.

Open Scope Z_scope.

(** ** Errors and results *)

(** Go [error] values.  [Errorf] is an error made by [fmt.Errorf] or
    [errors.New] without a wrapped cause, carrying its formatted message;
    [Wrapf] is [fmt.Errorf] with a [%w] verb: the formatted message and the
    wrapped error.  [LibError] is an error value returned by a package outside
    this repository. *)
Inductive error : Type :=
| ErrLength
| InvalidByteError (c : ascii)
| Errorf (msg : string)
| Wrapf (msg : string) (cause : error)
| LibError (msg : string).

(** A Go result pair [(T, error)]: callers in this program only look at the
    value when the error is nil. *)
Inductive result (A : Type) : Type :=
| Ok (a : A)
| Err (e : error).
Arguments Ok {A} a.
Arguments Err {A} e.

Definition is_ok {A} (r : result A) : bool :=
  match r with Ok _ => true | Err _ => false end.

(** ** Formatting helpers of package fmt *)

(** The verb [%d] on an integer. *)
Definition fmt_d (z : Z) : string := NilZero.string_of_int (Z.to_int z).

Definition hexdigit_upper (n : N) : ascii :=
  if (n <? 10)%N then ascii_of_N (48 + n) else ascii_of_N (55 + n).

(** [strconv.IsPrint] on the runes below 256. *)
Definition IsPrint (r : N) : bool :=
  if (32 <=? r)%N && (r <=? 126)%N then true
  else if (161 <=? r)%N && (r <=? 255)%N then negb (r =? 173)%N
  else false.

(** The UTF-8 encoding of a rune below 256, as the verb [%c] writes it. *)
Definition fmt_c (r : N) : string :=
  if (r <? 128)%N then String (ascii_of_N r) EmptyString
  else String (ascii_of_N (192 + N.shiftr r 6))
         (String (ascii_of_N (128 + N.land r 63)) EmptyString).

(** The verb [%#U] on a rune below 256. *)
Definition fmt_sharpU (r : N) : string :=
  let digits :=
    String "0" (String "0"
      (String (hexdigit_upper (N.shiftr r 4))
         (String (hexdigit_upper (N.land r 15)) EmptyString))) in
  "U+" +:+ digits +:+ (if IsPrint r then " '" +:+ fmt_c r +:+ "'" else "").

(** [err.Error()]. *)
Definition Error (e : error) : string :=
  match e with
  | ErrLength => "encoding/hex: odd length hex string"
  | InvalidByteError c => "encoding/hex: invalid byte: " +:+ fmt_sharpU (N_of_ascii c)
  | Errorf msg => msg
  | Wrapf msg _ => msg
  | LibError msg => msg
  end.

(** ** Package encoding/hex *)

Module hex.

(** The value of a hexadecimal digit, [None] for any other character. *)
Definition fromHexChar (c : ascii) : option N :=
  let n := N_of_ascii c in
  if (48 <=? n)%N && (n <=? 57)%N then Some (n - 48)%N
  else if (97 <=? n)%N && (n <=? 102)%N then Some (n - 97 + 10)%N
  else if (65 <=? n)%N && (n <=? 70)%N then Some (n - 65 + 10)%N
  else None.

(** [hex.DecodeString]: two digits per byte, left to right; the first
    character that is no digit gives [InvalidByteError], an odd number of
    digits gives [ErrLength]. *)
Fixpoint DecodeString (s : string) : result (list byte) :=
  match s with
  | EmptyString => Ok []
  | String p EmptyString =>
      match fromHexChar p with
      | None => Err (InvalidByteError p)
      | Some _ => Err ErrLength
      end
  | String p (String q rest) =>
      match fromHexChar p with
      | None => Err (InvalidByteError p)
      | Some a =>
          match fromHexChar q with
          | None => Err (InvalidByteError q)
          | Some b =>
              match DecodeString rest with
              | Err e => Err e
              | Ok bs => Ok (byte_of_ascii (ascii_of_N (N.lor (N.shiftl a 4) b)) :: bs)
              end
          end
      end
  end.

Definition hextable (n : N) : ascii :=
  if (n <? 10)%N then ascii_of_N (48 + n) else ascii_of_N (87 + n).

(** [hex.EncodeToString]: two lower-case digits per byte. *)
Fixpoint EncodeToString (bs : list byte) : string :=
  match bs with
  | [] => EmptyString
  | b :: rest =>
      let n := Byte.to_N b in
      String (hextable (N.shiftr n 4))
        (String (hextable (N.land n 15)) (EncodeToString rest))
  end.

End hex.

(** ** The flag context of a command *)

(** A [*cli.Context] as the commands read it: the values of the string,
    string-slice, int64 and uint64 flags by name, and the positional
    arguments.  A flag that is not set reads as the zero value of its type. *)
Record Context : Type := {
  StringFlags : gmap string string;
  StringSliceFlags : gmap string (list string);
  Int64Flags : gmap string Z;
  Uint64Flags : gmap string Z;
  Args : list string
}.

Definition ctx_String (ctx : Context) (name : string) : string :=
  default EmptyString (StringFlags ctx !! name).
Definition ctx_StringSlice (ctx : Context) (name : string) : list string :=
  default [] (StringSliceFlags ctx !! name).
Definition ctx_Int64 (ctx : Context) (name : string) : Z :=
  default 0 (Int64Flags ctx !! name).
Definition ctx_Uint64 (ctx : Context) (name : string) : Z :=
  default 0 (Uint64Flags ctx !! name).

(** [ctx.Args().First()]: the first positional argument, or the empty string. *)
Definition ctx_Args_First (ctx : Context) : string :=
  match Args ctx with
  | [] => EmptyString
  | a :: _ => a
  end.

(** ** Integer conversions *)

Definition MaxUint16 : Z := 65535.
Definition uint16 (z : Z) : Z := z mod 2 ^ 16.
Definition uint32 (z : Z) : Z := z mod 2 ^ 32.

(** ** Flag names *)

Definition stakingTransactionFlag : string := "staking-transaction".
Definition magicBytesFlag : string := "magic-bytes".
Definition covenantMembersPksFlag : string := "covenant-committee-pks".
Definition covenantQuorumFlag : string := "covenant-quorum".
Definition networkNameFlag : string := "network".
Definition stakerPublicKeyFlag : string := "staker-pk".
Definition finalityProviderKeyFlag : string := "finality-provider-pk".

(** Modelled from the spec: [helpers.StakingAmountFlag] and
    [helpers.StakingTimeBlocksFlag] are declared in package helpers; the names
    are those of the flags [staking-amount] and [staking-time-blocks] of the
    create command. *)
Definition StakingAmountFlag : string := "staking-amount".
Definition StakingTimeBlocksFlag : string := "staking-time-blocks".

(** Modelled from the spec: [btcstaking.MagicBytesLen], the protocol-defined
    number of magic bytes, which is 4. *)
Definition MagicBytesLen : nat := 4.

(** ** Parsers and validators that need no external package *)

Definition parseMagicBytesFromHex (magicBytesHex : string) : result (list byte) :=
  match hex.DecodeString magicBytesHex with
  | Err e => Err e
  | Ok magicBytes =>
      if negb (Nat.eqb (length magicBytes) MagicBytesLen)
      then Err (Errorf ("magic bytes should be of length " +:+ fmt_d (Z.of_nat MagicBytesLen)))
      else Ok magicBytes
  end.

Definition parseMagicBytesFromCliCtx (ctx : Context) : result (list byte) :=
  let magicBytesHex := ctx_String ctx magicBytesFlag in
  parseMagicBytesFromHex magicBytesHex.

Definition parseStakingAmountFromCliCtx (ctx : Context) : result Z :=
  let amt := ctx_Int64 ctx StakingAmountFlag in
  if amt <=? 0
  then Err (Errorf "staking amount should be greater than 0")
  else Ok amt.

Definition parseStakingTimeBlocksFromCliCtx (ctx : Context) : result Z :=
  let timeBlocks := ctx_Int64 ctx StakingTimeBlocksFlag in
  if timeBlocks <=? 0
  then Err (Errorf "staking time blocks should be greater than 0")
  else if timeBlocks >? MaxUint16
  then Err (Errorf ("staking time blocks should be less or equal to " +:+ fmt_d MaxUint16))
  else Ok (uint16 timeBlocks).

(** ** Network parameters *)

(** [chaincfg.Params]: the parameter sets a network name can resolve to. *)
Inductive Params : Type :=
| MainNetParams
| TestNet3Params
| RegressionNetParams
| SimNetParams
| SigNetParams.

(** Modelled from the spec: [utils.GetBtcNetworkParams] is declared in
    package utils; a network name resolves to one of the five known parameter
    sets, and any other name is an unknown-network error naming the input. *)
Definition GetBtcNetworkParams (network : string) : result Params :=
  if String.eqb network "testnet3" then Ok TestNet3Params
  else if String.eqb network "mainnet" then Ok MainNetParams
  else if String.eqb network "regtest" then Ok RegressionNetParams
  else if String.eqb network "simnet" then Ok SimNetParams
  else if String.eqb network "signet" then Ok SigNetParams
  else Err (Errorf ("unknown network " +:+ network)).

(** ** The external packages *)

(** What the commands use of the packages outside this repository.
    [PublicKey] is a [btcec.PublicKey] and [MsgTx] a [wire.MsgTx]; a slice of
    key pointers is a [list (option PublicKey)], where [None] is the nil
    pointer.  [NewBTCTxFromHex] is [bbn.NewBTCTxFromHex] without its second
    result, which the check command ignores; the results of the two
    btcstaking functions that the commands ignore are left out likewise.
    [SerializeBtcTransaction] is the wire encoding behind
    [utils.SerializeBtcTransaction]. *)
Class External : Type := {
  PublicKey : Type;
  MsgTx : Type;
  schnorr_ParsePubKey : list byte → result PublicKey;
  NewBTCTxFromHex : string → result MsgTx;
  BuildV0IdentifiableStakingOutputsAndTx :
    list byte → PublicKey → PublicKey → list (option PublicKey) →
    Z → Z → Z → Params → result MsgTx;
  ParseV0StakingTx :
    MsgTx → list byte → list (option PublicKey) → Z → Params → result unit;
  SerializeBtcTransaction : MsgTx → result (list byte)
}.

Record CreatePhase1StakingTxResponse : Type := {
  StakingTxHex : string
}.

(** ** Commands as traced computations *)

(** What a command does besides returning: the calls it makes to the network
    table, the transaction codec and the staking library, with their
    arguments, and what it prints. *)
Inductive Event `{External} : Type :=
| CallGetBtcNetworkParams (network : string)
| CallNewBTCTxFromHex (txHex : string)
| CallBuildV0IdentifiableStakingOutputsAndTx
    (magicBytes : list byte) (stakerPk fpPk : PublicKey)
    (covenantMembersPks : list (option PublicKey))
    (covenantQuorum stakingTimeBlocks stakingAmount : Z) (net : Params)
| CallParseV0StakingTx
    (tx : MsgTx) (magicBytes : list byte)
    (covenantMembersPks : list (option PublicKey))
    (covenantQuorum : Z) (net : Params)
| CallSerializeBtcTransaction (tx : MsgTx)
| Println (line : string)
| PrintRespJSON (resp : CreatePhase1StakingTxResponse).

(** A computation that logs events and returns a value or stops at the first
    error, as a Go function that returns on [err != nil]. *)
Definition M `{External} (A : Type) : Type := (list Event * result A)%type.

Definition M_ret `{External} {A} (a : A) : M A := ([], Ok a).

Definition M_bind `{External} {A B} (f : A → M B) (m : M A) : M B :=
  match m with
  | (t, Ok a) => let '(t', r) := f a in (t ++ t', r)
  | (t, Err e) => (t, Err e)
  end.

#[export] Instance M_mret `{External} : MRet M := @M_ret _.
#[export] Instance M_mbind `{External} : MBind M := @M_bind _.

(** A step that cannot log: a parser or validator of this file. *)
Definition pure `{External} {A} (r : result A) : M A := ([], r).

(** A step that logs one event and returns [r]. *)
Definition logged `{External} {A} (ev : Event) (r : result A) : M A := ([ev], r).

Definition trace `{External} {A} (m : M A) : list Event := fst m.
Definition outcome `{External} {A} (m : M A) : result A := snd m.

Section Commands.
Context `{External}.

Definition parseSchnorPubKeyFromHex (pkHex : string) : result PublicKey :=
  match hex.DecodeString pkHex with
  | Err e => Err e
  | Ok pkBytes =>
      match schnorr_ParsePubKey pkBytes with
      | Err e => Err e
      | Ok pk => Ok pk
      end
  end.

Definition parseSchnorPubKeyFromCliCtx (ctx : Context) (flagName : string)
  : result PublicKey :=
  let pkHex := ctx_String ctx flagName in
  parseSchnorPubKeyFromHex pkHex.

(** The loop of [parseCovenantKeysFromSlice] from index [i] on: [rest] are the
    elements not yet visited and [covenantPubKeys] the slice being filled. *)
Fixpoint parseCovenantKeysLoop (i : nat) (rest : list string)
    (covenantPubKeys : list (option PublicKey)) : result (list (option PublicKey)) :=
  match rest with
  | [] => Ok covenantPubKeys
  | fpPk :: rest' =>
      match hex.DecodeString fpPk with
      | Err e => Err e
      | Ok fpPkBytes =>
          match schnorr_ParsePubKey fpPkBytes with
          | Err e => Err e
          | Ok fpSchnorrKey =>
              parseCovenantKeysLoop (S i) rest' (<[i := Some fpSchnorrKey]> covenantPubKeys)
          end
      end
  end.

Definition parseCovenantKeysFromSlice (covenantMembersPks : list string)
  : result (list (option PublicKey)) :=
  let covenantPubKeys := replicate (length covenantMembersPks) None in
  parseCovenantKeysLoop 0 covenantMembersPks covenantPubKeys.

Definition parseCovenantKeysFromCliCtx (ctx : Context)
  : result (list (option PublicKey)) :=
  let covenantMembersPks := ctx_StringSlice ctx covenantMembersPksFlag in
  parseCovenantKeysFromSlice covenantMembersPks.

(** [MakeCreatePhase1StakingTxResponse]: build, serialize, hex-encode. *)
Definition MakeCreatePhase1StakingTxResponse
    (magicBytes : list byte) (stakerPk fpPk : PublicKey)
    (covenantMembersPks : list (option PublicKey))
    (covenantQuorum stakingTimeBlocks stakingAmount : Z) (net : Params)
  : M CreatePhase1StakingTxResponse :=
  tx ← logged
         (CallBuildV0IdentifiableStakingOutputsAndTx magicBytes stakerPk fpPk
            covenantMembersPks covenantQuorum stakingTimeBlocks stakingAmount net)
         (BuildV0IdentifiableStakingOutputsAndTx magicBytes stakerPk fpPk
            covenantMembersPks covenantQuorum stakingTimeBlocks stakingAmount net);
  serializedTx ← logged (CallSerializeBtcTransaction tx) (SerializeBtcTransaction tx);
  mret {| StakingTxHex := hex.EncodeToString serializedTx |}.

Definition checkPhase1StakingTransaction (ctx : Context) : M unit :=
  let net := ctx_String ctx networkNameFlag in
  currentParams ← logged (CallGetBtcNetworkParams net) (GetBtcNetworkParams net);
  let stakingTxHex := ctx_String ctx stakingTransactionFlag in
  tx ← logged (CallNewBTCTxFromHex stakingTxHex) (NewBTCTxFromHex stakingTxHex);
  magicBytes ← pure (parseMagicBytesFromCliCtx ctx);
  covenantMembersPks ← pure (parseCovenantKeysFromCliCtx ctx);
  let covenantQuorum := uint32 (ctx_Uint64 ctx covenantQuorumFlag) in
  _ ← logged
        (CallParseV0StakingTx tx magicBytes covenantMembersPks covenantQuorum currentParams)
        (ParseV0StakingTx tx magicBytes covenantMembersPks covenantQuorum currentParams);
  logged (Println "Provided transaction is valid staking transaction!") (Ok tt).

Definition createPhase1StakingTransaction (ctx : Context) : M unit :=
  let net := ctx_String ctx networkNameFlag in
  currentParams ← logged (CallGetBtcNetworkParams net) (GetBtcNetworkParams net);
  stakerPk ← pure (parseSchnorPubKeyFromCliCtx ctx stakerPublicKeyFlag);
  fpPk ← pure (parseSchnorPubKeyFromCliCtx ctx finalityProviderKeyFlag);
  stakingAmount ← pure (parseStakingAmountFromCliCtx ctx);
  stakingTimeBlocks ← pure (parseStakingTimeBlocksFromCliCtx ctx);
  magicBytes ← pure (parseMagicBytesFromCliCtx ctx);
  covenantMembersPks ← pure (parseCovenantKeysFromCliCtx ctx);
  let covenantQuorum := uint32 (ctx_Uint64 ctx covenantQuorumFlag) in
  resp ← MakeCreatePhase1StakingTxResponse magicBytes stakerPk fpPk
           covenantMembersPks covenantQuorum stakingTimeBlocks stakingAmount
           currentParams;
  logged (PrintRespJSON resp) (Ok tt).

End Commands.

(** ** The JSON input variant *)

(** What [createPhase1StakingTransactionFromJson] uses and this file does not
    define: the file system ([os.FileExists], [os.ReadFile]), the structure
    [InputBtcStakingTx] with its zero value, its [%+v] rendering and its
    method [ToCreatePhase1StakingTxResponse], and [json.Unmarshal] into that
    structure, which returns the structure as it left it and the error, if
    any. *)
Class JsonInput `{External} : Type := {
  InputBtcStakingTx : Type;
  InputBtcStakingTx_zero : InputBtcStakingTx;
  os_FileExists : string → bool;
  os_ReadFile : string → result string;
  json_Unmarshal : string → InputBtcStakingTx → InputBtcStakingTx * option error;
  fmt_plus_v : InputBtcStakingTx → string;
  ToCreatePhase1StakingTxResponse : InputBtcStakingTx → M CreatePhase1StakingTxResponse
}.

Section JsonCommand.
Context `{JsonInput}.

Definition createPhase1StakingTransactionFromJson (ctx : Context) : M unit :=
  let inputFilePath := ctx_Args_First ctx in
  if Nat.eqb (String.length inputFilePath) 0
  then pure (Err (Errorf "json file input is empty"))
  else if negb (os_FileExists inputFilePath)
  then pure (Err (Errorf ("json file input " +:+ inputFilePath +:+ " does not exist")))
  else
    match os_ReadFile inputFilePath with
    | Err err =>
        pure (Err (Wrapf ("error reading file " +:+ inputFilePath +:+ ": " +:+ Error err) err))
    | Ok bz =>
        match json_Unmarshal bz InputBtcStakingTx_zero with
        | (input, Some err) =>
            pure (Err (Wrapf ("error parsing file content " +:+ bz +:+ " to struct "
                                +:+ fmt_plus_v input +:+ ": " +:+ Error err) err))
        | (input, None) =>
            resp ← ToCreatePhase1StakingTxResponse input;
            logged (PrintRespJSON resp) (Ok tt)
        end
    end.

End JsonCommand.

(** ** The JSON-RPC client of the staker daemon *)

Module client.

(** A value stored in the [map[string]interface{}] of a request: a pointer
    to an int ([None] is the nil pointer, which is encoded as JSON null), an
    int64 or a string. *)
Inductive iface : Type :=
| IntPtr (p : option Z)
| Int64 (z : Z)
| Str (s : string).

(** The arguments of one [c.client.Call]. *)
Record Request : Type := {
  method : string;
  params : gmap string iface
}.

Section Client.
(** The transport: [Reply] is the decoded result and [Call] sends one request
    and waits for its answer. *)
Context {Reply : Type} (Call : Request → result Reply).

(** Each method returns the request it issued together with its result. *)
Definition Health : Request * result Reply :=
  let req := {| method := "health"; params := ∅ |} in
  (req, match Call req with Err err => Err err | Ok result => Ok result end).

Definition ListOutputs : Request * result Reply :=
  let req := {| method := "list_outputs"; params := ∅ |} in
  (req, match Call req with Err err => Err err | Ok result => Ok result end).

Definition BabylonValidators (offset limit : option Z) : Request * result Reply :=
  let params : gmap string iface := ∅ in
  let params := match limit with
                | Some _ => <["limit" := IntPtr limit]> params
                | None => params
                end in
  let params := match offset with
                | Some _ => <["offset" := IntPtr offset]> params
                | None => params
                end in
  let req := {| method := "babylon_validators"; params := params |} in
  (req, match Call req with Err err => Err err | Ok result => Ok result end).

Definition Stake (stakerAddress : string) (stakingAmount : Z)
    (validatorPk : string) (stakingTimeBlocks : Z) : Request * result Reply :=
  let params : gmap string iface := ∅ in
  let params := <["stakerAddress" := Str stakerAddress]> params in
  let params := <["stakingAmount" := Int64 stakingAmount]> params in
  let params := <["validatorPk" := Str validatorPk]> params in
  let params := <["stakingTimeBlocks" := Int64 stakingTimeBlocks]> params in
  let req := {| method := "stake"; params := params |} in
  (req, match Call req with Err err => Err err | Ok result => Ok result end).

Definition ListStakingTransactions (offset limit : option Z) : Request * result Reply :=
  let params : gmap string iface := ∅ in
  let params := match limit with
                | Some _ => <["limit" := IntPtr limit]> params
                | None => params
                end in
  let params := match offset with
                | Some _ => <["offset" := IntPtr offset]> params
                | None => params
                end in
  let req := {| method := "list_staking_transactions"; params := params |} in
  (req, match Call req with Err err => Err err | Ok result => Ok result end).

End Client.

End client.

(** ** A reference instance of the external packages

    The commands above are defined over any instance of [External].  To run
    them on concrete inputs this module gives one: public keys are parsed as
    [schnorr.ParsePubKey] prescribes (32 bytes, an x coordinate on secp256k1,
    the point with even y), and the staking library is a simplified one whose
    transaction is the V0 staking payload followed by the quorum and the
    covenant keys.  Its transaction codec is hex decoding alone: it has no
    wire format to check, so it takes every hex string for a transaction,
    also those [bbn.NewBTCTxFromHex] refuses.  The instance serves to run the
    commands on sample flags. *)

Module Reference.

(** The field prime of secp256k1. *)
Definition secp256k1_P : Z := 2 ^ 256 - 2 ^ 32 - 977.

(** Modular exponentiation by squaring, on machine-word numbers so that it
    runs on 256-bit operands. *)
Fixpoint powmod_pos (b : BigN.BigN.t) (e : positive) (m : BigN.BigN.t) : BigN.BigN.t :=
  match e with
  | xH => BigN.BigN.modulo b m
  | xO e' =>
      let r := powmod_pos b e' m in
      BigN.BigN.modulo (BigN.BigN.mul r r) m
  | xI e' =>
      let r := powmod_pos b e' m in
      BigN.BigN.modulo (BigN.BigN.mul (BigN.BigN.modulo (BigN.BigN.mul r r) m) b) m
  end.

(** [b ^ e mod m] for [0 <= b] and [0 < m]. *)
Definition powmod (b e m : Z) : Z :=
  match e with
  | Zpos p =>
      Z.of_N (BigN.BigN.to_N
                (powmod_pos (BigN.BigN.of_N (Z.to_N b)) p (BigN.BigN.of_N (Z.to_N m))))
  | _ => 1 mod m
  end.

(** A point of the curve in affine coordinates. *)
Record Point : Type := { X : Z; Y : Z }.

(** Big-endian bytes as a number, and a number as [n] big-endian bytes. *)
Definition bytes_to_Z (bs : list byte) : Z :=
  fold_left (fun acc b => acc * 256 + Z.of_N (Byte.to_N b)) bs 0.

Fixpoint Z_to_bytes (n : nat) (z : Z) : list byte :=
  match n with
  | O => []
  | S n' => Z_to_bytes n' (z / 256) ++ [byte_of_ascii (ascii_of_N (Z.to_N (z mod 256)))]
  end.

(** The point with x coordinate [x] and even y, if [x] is a field element
    and [x^3 + 7] is a square. *)
Definition lift_x (x : Z) : option Point :=
  if x >=? secp256k1_P then None
  else
    let c := (x * x * x + 7) mod secp256k1_P in
    let y := powmod c ((secp256k1_P + 1) / 4) secp256k1_P in
    if (y * y) mod secp256k1_P =? c
    then Some {| X := x; Y := if Z.even y then y else secp256k1_P - y |}
    else None.

Definition PubKeyBytesLen : nat := 32.

Definition ParsePubKey (pubKeyStr : list byte) : result Point :=
  if negb (Nat.eqb (length pubKeyStr) PubKeyBytesLen)
  then Err (LibError ("bad pubkey byte string size (want "
                        +:+ fmt_d (Z.of_nat PubKeyBytesLen) +:+ ", have "
                        +:+ fmt_d (Z.of_nat (length pubKeyStr)) +:+ ")"))
  else
    match lift_x (bytes_to_Z pubKeyStr) with
    | None => Err (LibError "invalid public key: x coordinate is not on the secp256k1 curve")
    | Some pk => Ok pk
    end.

(** The x-only serialization of a key. *)
Definition SerializePubKey (pk : Point) : list byte := Z_to_bytes 32 (X pk).

(** The simplified staking library.  A transaction is its payload bytes:
    magic bytes, version 0, staker key, finality provider key, staking time
    (2 bytes), amount (8 bytes), network (1 byte), quorum (4 bytes), then the
    covenant keys.  It stands in for btcstaking only where a command is run
    on concrete flags; every property below that speaks of the staking
    library is proved for all instances of [External]. *)
Definition covenant_bytes (covenantMembersPks : list (option Point)) : list byte :=
  flat_map (fun pk => match pk with
                      | Some k => SerializePubKey k
                      | None => []
                      end) covenantMembersPks.

Definition net_byte (net : Params) : byte :=
  match net with
  | MainNetParams => "000"%byte
  | TestNet3Params => "001"%byte
  | RegressionNetParams => "002"%byte
  | SimNetParams => "003"%byte
  | SigNetParams => "004"%byte
  end.

Definition Build (magicBytes : list byte) (stakerPk fpPk : Point)
    (covenantMembersPks : list (option Point))
    (covenantQuorum stakingTimeBlocks stakingAmount : Z) (net : Params)
  : result (list byte) :=
  if (covenantQuorum <=? 0) || (Z.of_nat (length covenantMembersPks) <? covenantQuorum)
  then Err (LibError "invalid covenant quorum")
  else Ok (magicBytes ++ ["000"%byte] ++ SerializePubKey stakerPk ++ SerializePubKey fpPk
             ++ Z_to_bytes 2 stakingTimeBlocks ++ Z_to_bytes 8 stakingAmount
             ++ [net_byte net] ++ Z_to_bytes 4 covenantQuorum
             ++ covenant_bytes covenantMembersPks).

Fixpoint bytes_eqb (a b : list byte) : bool :=
  match a, b with
  | [], [] => true
  | x :: a', y :: b' => Byte.eqb x y && bytes_eqb a' b'
  | _, _ => false
  end.

Definition Parse (tx : list byte) (magicBytes : list byte)
    (covenantMembersPks : list (option Point)) (covenantQuorum : Z) (net : Params)
  : result unit :=
  if negb (bytes_eqb (take 4 tx) magicBytes)
  then Err (LibError "unexpected magic bytes")
  else if negb (bytes_eqb (drop 79 tx)
                  ([net_byte net] ++ Z_to_bytes 4 covenantQuorum
                     ++ covenant_bytes covenantMembersPks))
  then Err (LibError "transaction does not have expected staking output")
  else Ok tt.

#[export] Instance reference_External : External := {|
  PublicKey := Point;
  MsgTx := list byte;
  schnorr_ParsePubKey := ParsePubKey;
  NewBTCTxFromHex := hex.DecodeString;
  BuildV0IdentifiableStakingOutputsAndTx := Build;
  ParseV0StakingTx := Parse;
  SerializeBtcTransaction := fun tx => Ok tx
|}.

(** *** JSON input

    A decoder for the JSON documents the input file can hold: objects,
    arrays, strings with the simple escapes, integers, [true], [false] and
    [null].  It is smaller than encoding/json: a number with a fraction or an
    exponent and a string with a unicode escape are syntax errors here, and
    the texts of its errors are its own. *)
#[warnings="-register-all"]
Inductive JSON : Type :=
| JNull
| JBool (b : bool)
| JNumber (z : Z)
| JString (s : string)
| JArray (l : list JSON)
| JObject (l : list (string * JSON)).

Definition is_space (c : ascii) : bool :=
  let n := N_of_ascii c in
  (n =? 32)%N || (n =? 9)%N || (n =? 10)%N || (n =? 13)%N.

Fixpoint skip_ws (s : string) : string :=
  match s with
  | String c r => if is_space c then skip_ws r else s
  | EmptyString => s
  end.

(** The double quote, character 34. *)
Definition is_quote (c : ascii) : bool := (N_of_ascii c =? 34)%N.

(** A string literal of a document: [s] between double quotes. *)
Definition quoted (s : string) : string :=
  String (ascii_of_N 34) (s +:+ String (ascii_of_N 34) EmptyString).

Definition unescape (c : ascii) : option ascii :=
  let n := N_of_ascii c in
  if (n =? 34)%N || (n =? 92)%N || (n =? 47)%N then Some c
  else if (n =? 110)%N then Some (ascii_of_N 10)
  else if (n =? 116)%N then Some (ascii_of_N 9)
  else if (n =? 114)%N then Some (ascii_of_N 13)
  else if (n =? 98)%N then Some (ascii_of_N 8)
  else if (n =? 102)%N then Some (ascii_of_N 12)
  else None.

(** The characters of a string literal after its opening quote, and the
    text after its closing quote. *)
Fixpoint scan_string (s : string) : option (string * string) :=
  match s with
  | EmptyString => None
  | String c r =>
      let n := N_of_ascii c in
      if (n =? 34)%N then Some (EmptyString, r)
      else if (n =? 92)%N then
        match r with
        | EmptyString => None
        | String e r' =>
            match unescape e, scan_string r' with
            | Some ch, Some (body, rest) => Some (String ch body, rest)
            | _, _ => None
            end
        end
      else if (n <? 32)%N then None
      else
        match scan_string r with
        | Some (body, rest) => Some (String c body, rest)
        | None => None
        end
  end.

Definition digit_of (c : ascii) : option Z :=
  let n := N_of_ascii c in
  if (48 <=? n)%N && (n <=? 57)%N then Some (Z.of_N n - 48) else None.

(** The digits at the head of [s]: their value from [acc] on, how many
    there are, and the text after them. *)
Fixpoint scan_digits (s : string) (acc : Z) (count : nat) : Z * nat * string :=
  match s with
  | String c r =>
      match digit_of c with
      | Some d => scan_digits r (acc * 10 + d) (S count)
      | None => (acc, count, s)
      end
  | EmptyString => (acc, count, s)
  end.

Definition starts_number_tail (s : string) : bool :=
  match s with
  | String c _ =>
      let n := N_of_ascii c in (n =? 46)%N || (n =? 101)%N || (n =? 69)%N
  | EmptyString => false
  end.

Definition scan_unsigned (s : string) : option (Z * string) :=
  match scan_digits s 0 0 with
  | (_, O, _) => None
  | (v, S n, rest) =>
      match s with
      | String "0" _ => if Nat.eqb n 0 && negb (starts_number_tail rest)
                        then Some (v, rest) else None
      | _ => if starts_number_tail rest then None else Some (v, rest)
      end
  end.

Definition scan_number (s : string) : option (Z * string) :=
  match s with
  | String "-" r =>
      match scan_unsigned r with
      | Some (v, rest) => Some (- v, rest)
      | None => None
      end
  | _ => scan_unsigned s
  end.

Fixpoint strip_prefix (p s : string) : option string :=
  match p, s with
  | EmptyString, _ => Some s
  | String a p', String b s' => if Ascii.eqb a b then strip_prefix p' s' else None
  | String _ _, EmptyString => None
  end.

Section Members.
Variable parse_value : string → option (JSON * string).

(** The elements of an array after the first has been announced. *)
Fixpoint parse_elements (fuel : nat) (s : string) : option (list JSON * string) :=
  match fuel with
  | O => None
  | S fuel' =>
      match parse_value s with
      | None => None
      | Some (v, rest) =>
          match skip_ws rest with
          | String "," rest' =>
              match parse_elements fuel' rest' with
              | Some (vs, rest'') => Some (v :: vs, rest'')
              | None => None
              end
          | String "]" rest' => Some ([v], rest')
          | _ => None
          end
      end
  end.

Fixpoint parse_members (fuel : nat) (s : string)
  : option (list (string * JSON) * string) :=
  match fuel with
  | O => None
  | S fuel' =>
      match skip_ws s with
      | String c r =>
          if negb (is_quote c) then None else
          match scan_string r with
          | None => None
          | Some (key, rest) =>
              match skip_ws rest with
              | String ":" rest1 =>
                  match parse_value rest1 with
                  | None => None
                  | Some (v, rest2) =>
                      match skip_ws rest2 with
                      | String "," rest3 =>
                          match parse_members fuel' rest3 with
                          | Some (kvs, rest4) => Some ((key, v) :: kvs, rest4)
                          | None => None
                          end
                      | String "}" rest3 => Some ([(key, v)], rest3)
                      | _ => None
                      end
                  end
              | _ => None
              end
          end
      | _ => None
      end
  end.

End Members.

Fixpoint parse_value (fuel : nat) (s : string) : option (JSON * string) :=
  match fuel with
  | O => None
  | S fuel' =>
      match skip_ws s with
      | EmptyString => None
      | String "{" r =>
          match skip_ws r with
          | String "}" r' => Some (JObject [], r')
          | _ =>
              match parse_members (parse_value fuel') fuel' r with
              | Some (kvs, rest) => Some (JObject kvs, rest)
              | None => None
              end
          end
      | String "[" r =>
          match skip_ws r with
          | String "]" r' => Some (JArray [], r')
          | _ =>
              match parse_elements (parse_value fuel') fuel' r with
              | Some (vs, rest) => Some (JArray vs, rest)
              | None => None
              end
          end
      | String c r as s' =>
          if is_quote c then
            match scan_string r with
            | Some (body, rest) => Some (JString body, rest)
            | None => None
            end
          else
          match strip_prefix "true" s', strip_prefix "false" s', strip_prefix "null" s' with
          | Some rest, _, _ => Some (JBool true, rest)
          | _, Some rest, _ => Some (JBool false, rest)
          | _, _, Some rest => Some (JNull, rest)
          | None, None, None =>
              match scan_number s' with
              | Some (v, rest) => Some (JNumber v, rest)
              | None => None
              end
          end
      end
  end.

(** A whole document: one value and nothing but white space after it. *)
Definition parse_document (s : string) : option JSON :=
  match parse_value (S (String.length s)) s with
  | Some (v, rest) =>
      match skip_ws rest with
      | EmptyString => Some v
      | _ => None
      end
  | None => None
  end.


(** Modelled from the spec: [InputBtcStakingTx] is declared in another file
    of package transaction; it mirrors the staking parameters, with the keys
    and the magic bytes as hex strings. *)
Record Input : Type := {
  BtcNetwork : string;
  StakerPublicKeyHex : string;
  CovenantMembersPkHex : list string;
  FinalityProviderPublicKeyHex : string;
  StakingAmount : Z;
  StakingTimeBlocks : Z;
  MagicBytes : string;
  CovenantQuorum : Z
}.

Definition Input_zero : Input := {|
  BtcNetwork := EmptyString;
  StakerPublicKeyHex := EmptyString;
  CovenantMembersPkHex := [];
  FinalityProviderPublicKeyHex := EmptyString;
  StakingAmount := 0;
  StakingTimeBlocks := 0;
  MagicBytes := EmptyString;
  CovenantQuorum := 0
|}.

Definition fmt_strings (l : list string) : string :=
  "[" +:+ String.concat " " l +:+ "]".

(** The verb [%+v] on the structure. *)
Definition Input_plus_v (i : Input) : string :=
  "{BtcNetwork:" +:+ BtcNetwork i
    +:+ " StakerPublicKeyHex:" +:+ StakerPublicKeyHex i
    +:+ " CovenantMembersPkHex:" +:+ fmt_strings (CovenantMembersPkHex i)
    +:+ " FinalityProviderPublicKeyHex:" +:+ FinalityProviderPublicKeyHex i
    +:+ " StakingAmount:" +:+ fmt_d (StakingAmount i)
    +:+ " StakingTimeBlocks:" +:+ fmt_d (StakingTimeBlocks i)
    +:+ " MagicBytes:" +:+ MagicBytes i
    +:+ " CovenantQuorum:" +:+ fmt_d (CovenantQuorum i) +:+ "}".

Definition lower (c : ascii) : ascii :=
  let n := N_of_ascii c in
  if (65 <=? n)%N && (n <=? 90)%N then ascii_of_N (n + 32) else c.

Fixpoint fold_eqb (a b : string) : bool :=
  match a, b with
  | EmptyString, EmptyString => true
  | String x a', String y b' => Ascii.eqb (lower x) (lower y) && fold_eqb a' b'
  | _, _ => false
  end.

Definition as_string (v : JSON) : option string :=
  match v with JString s => Some s | _ => None end.

Definition as_int (lo hi : Z) (v : JSON) : option Z :=
  match v with
  | JNumber z => if (lo <=? z) && (z <=? hi) then Some z else None
  | _ => None
  end.

Fixpoint as_strings (vs : list JSON) : option (list string) :=
  match vs with
  | [] => Some []
  | v :: vs' =>
      match as_string v, as_strings vs' with
      | Some s, Some l => Some (s :: l)
      | _, _ => None
      end
  end.

Definition type_error (field : string) : error :=
  LibError ("json: cannot unmarshal value into Go struct field InputBtcStakingTx." +:+ field).

(** One member of the object stored into the structure: a key that names no
    field is skipped, [null] stores nothing, a value of the wrong type leaves
    the field as it is and is an error. *)
Definition set_field (i : Input) (key : string) (v : JSON) : Input * option error :=
  match v with
  | JNull => (i, None)
  | _ =>
  if fold_eqb key "btc_network" then
    match as_string v with
    | Some s => ({| BtcNetwork := s; StakerPublicKeyHex := StakerPublicKeyHex i;
                    CovenantMembersPkHex := CovenantMembersPkHex i;
                    FinalityProviderPublicKeyHex := FinalityProviderPublicKeyHex i;
                    StakingAmount := StakingAmount i; StakingTimeBlocks := StakingTimeBlocks i;
                    MagicBytes := MagicBytes i; CovenantQuorum := CovenantQuorum i |}, None)
    | None => (i, Some (type_error key))
    end
  else if fold_eqb key "staker_public_key_hex" then
    match as_string v with
    | Some s => ({| BtcNetwork := BtcNetwork i; StakerPublicKeyHex := s;
                    CovenantMembersPkHex := CovenantMembersPkHex i;
                    FinalityProviderPublicKeyHex := FinalityProviderPublicKeyHex i;
                    StakingAmount := StakingAmount i; StakingTimeBlocks := StakingTimeBlocks i;
                    MagicBytes := MagicBytes i; CovenantQuorum := CovenantQuorum i |}, None)
    | None => (i, Some (type_error key))
    end
  else if fold_eqb key "covenant_members_pk_hex" then
    match v with
    | JArray vs =>
        match as_strings vs with
        | Some l => ({| BtcNetwork := BtcNetwork i; StakerPublicKeyHex := StakerPublicKeyHex i;
                        CovenantMembersPkHex := l;
                        FinalityProviderPublicKeyHex := FinalityProviderPublicKeyHex i;
                        StakingAmount := StakingAmount i; StakingTimeBlocks := StakingTimeBlocks i;
                        MagicBytes := MagicBytes i; CovenantQuorum := CovenantQuorum i |}, None)
        | None => (i, Some (type_error key))
        end
    | _ => (i, Some (type_error key))
    end
  else if fold_eqb key "finality_provider_public_key_hex" then
    match as_string v with
    | Some s => ({| BtcNetwork := BtcNetwork i; StakerPublicKeyHex := StakerPublicKeyHex i;
                    CovenantMembersPkHex := CovenantMembersPkHex i;
                    FinalityProviderPublicKeyHex := s;
                    StakingAmount := StakingAmount i; StakingTimeBlocks := StakingTimeBlocks i;
                    MagicBytes := MagicBytes i; CovenantQuorum := CovenantQuorum i |}, None)
    | None => (i, Some (type_error key))
    end
  else if fold_eqb key "staking_amount" then
    match as_int (- 2 ^ 63) (2 ^ 63 - 1) v with
    | Some z => ({| BtcNetwork := BtcNetwork i; StakerPublicKeyHex := StakerPublicKeyHex i;
                    CovenantMembersPkHex := CovenantMembersPkHex i;
                    FinalityProviderPublicKeyHex := FinalityProviderPublicKeyHex i;
                    StakingAmount := z; StakingTimeBlocks := StakingTimeBlocks i;
                    MagicBytes := MagicBytes i; CovenantQuorum := CovenantQuorum i |}, None)
    | None => (i, Some (type_error key))
    end
  else if fold_eqb key "staking_time_blocks" then
    match as_int (- 2 ^ 63) (2 ^ 63 - 1) v with
    | Some z => ({| BtcNetwork := BtcNetwork i; StakerPublicKeyHex := StakerPublicKeyHex i;
                    CovenantMembersPkHex := CovenantMembersPkHex i;
                    FinalityProviderPublicKeyHex := FinalityProviderPublicKeyHex i;
                    StakingAmount := StakingAmount i; StakingTimeBlocks := z;
                    MagicBytes := MagicBytes i; CovenantQuorum := CovenantQuorum i |}, None)
    | None => (i, Some (type_error key))
    end
  else if fold_eqb key "magic_bytes" then
    match as_string v with
    | Some s => ({| BtcNetwork := BtcNetwork i; StakerPublicKeyHex := StakerPublicKeyHex i;
                    CovenantMembersPkHex := CovenantMembersPkHex i;
                    FinalityProviderPublicKeyHex := FinalityProviderPublicKeyHex i;
                    StakingAmount := StakingAmount i; StakingTimeBlocks := StakingTimeBlocks i;
                    MagicBytes := s; CovenantQuorum := CovenantQuorum i |}, None)
    | None => (i, Some (type_error key))
    end
  else if fold_eqb key "covenant_quorum" then
    match as_int 0 (2 ^ 32 - 1) v with
    | Some z => ({| BtcNetwork := BtcNetwork i; StakerPublicKeyHex := StakerPublicKeyHex i;
                    CovenantMembersPkHex := CovenantMembersPkHex i;
                    FinalityProviderPublicKeyHex := FinalityProviderPublicKeyHex i;
                    StakingAmount := StakingAmount i; StakingTimeBlocks := StakingTimeBlocks i;
                    MagicBytes := MagicBytes i; CovenantQuorum := z |}, None)
    | None => (i, Some (type_error key))
    end
  else (i, None)
  end.

(** The members of an object stored in order; the first error is kept and
    decoding goes on. *)
Fixpoint set_fields (i : Input) (kvs : list (string * JSON)) : Input * option error :=
  match kvs with
  | [] => (i, None)
  | (key, v) :: kvs' =>
      let '(i1, e1) := set_field i key v in
      let '(i2, e2) := set_fields i1 kvs' in
      (i2, match e1 with Some _ => e1 | None => e2 end)
  end.

(** [json.Unmarshal] into the structure: a text that is no JSON document is
    a syntax error and leaves the structure alone; [null] stores nothing; a
    document that is no object cannot be stored in a structure. *)
Definition Unmarshal (bz : string) (input : Input) : Input * option error :=
  match parse_document bz with
  | None => (input, Some (LibError "invalid JSON input"))
  | Some JNull => (input, None)
  | Some (JObject kvs) => set_fields input kvs
  | Some _ =>
      (input, Some (LibError "json: cannot unmarshal value into Go value of type transaction.InputBtcStakingTx"))
  end.

(** Modelled from the spec: the method [ToCreatePhase1StakingTxResponse] of
    [InputBtcStakingTx] is declared in another file of package transaction;
    it converts the loaded structure to an invocation of the builder, with
    the parsers of this file. *)
Definition ToCreate (tx : Input) : M CreatePhase1StakingTxResponse :=
  stakerPk ← pure (parseSchnorPubKeyFromHex (StakerPublicKeyHex tx));
  fpPk ← pure (parseSchnorPubKeyFromHex (FinalityProviderPublicKeyHex tx));
  magicBytes ← pure (parseMagicBytesFromHex (MagicBytes tx));
  covenantMembersPks ← pure (parseCovenantKeysFromSlice (CovenantMembersPkHex tx));
  net ← logged (CallGetBtcNetworkParams (BtcNetwork tx)) (GetBtcNetworkParams (BtcNetwork tx));
  MakeCreatePhase1StakingTxResponse magicBytes stakerPk fpPk covenantMembersPks
    (uint32 (CovenantQuorum tx)) (uint16 (StakingTimeBlocks tx)) (StakingAmount tx) net.

(** The instance over a file system given as a finite map from the paths of
    the readable files to their content. *)
Definition reference_JsonInput (files : gmap string string) : JsonInput := {|
  InputBtcStakingTx := Input;
  InputBtcStakingTx_zero := Input_zero;
  os_FileExists := fun path => bool_decide (is_Some (files !! path));
  os_ReadFile := fun path =>
    match files !! path with
    | Some content => Ok content
    | None => Err (LibError ("open " +:+ path +:+ ": no such file or directory"))
    end;
  json_Unmarshal := Unmarshal;
  fmt_plus_v := Input_plus_v;
  ToCreatePhase1StakingTxResponse := ToCreate
|}.

End Reference.

(** ** Building flag contexts *)

Definition no_flags : Context := {|
  StringFlags := ∅; StringSliceFlags := ∅; Int64Flags := ∅; Uint64Flags := ∅;
  Args := []
|}.

Definition with_int64 (name : string) (v : Z) (ctx : Context) : Context := {|
  StringFlags := StringFlags ctx;
  StringSliceFlags := StringSliceFlags ctx;
  Int64Flags := <[name := v]> (Int64Flags ctx);
  Uint64Flags := Uint64Flags ctx;
  Args := Args ctx
|}.

Definition with_uint64 (name : string) (v : Z) (ctx : Context) : Context := {|
  StringFlags := StringFlags ctx;
  StringSliceFlags := StringSliceFlags ctx;
  Int64Flags := Int64Flags ctx;
  Uint64Flags := <[name := v]> (Uint64Flags ctx);
  Args := Args ctx
|}.

Definition with_string (name : string) (v : string) (ctx : Context) : Context := {|
  StringFlags := <[name := v]> (StringFlags ctx);
  StringSliceFlags := StringSliceFlags ctx;
  Int64Flags := Int64Flags ctx;
  Uint64Flags := Uint64Flags ctx;
  Args := Args ctx
|}.

Definition with_string_slice (name : string) (v : list string) (ctx : Context) : Context := {|
  StringFlags := StringFlags ctx;
  StringSliceFlags := <[name := v]> (StringSliceFlags ctx);
  Int64Flags := Int64Flags ctx;
  Uint64Flags := Uint64Flags ctx;
  Args := Args ctx
|}.

(** ** Sample inputs *)

Module Sample.

(** Three x-only keys: the x coordinate of the generator of secp256k1 and
    the field elements 1 and 2, which are x coordinates of curve points. *)
Definition key_g : string :=
  "79be667ef9dcbbac55a06295ce870b07029bfcdb2dce28d959f2815b16f81798".
Definition key_1 : string :=
  "0000000000000000000000000000000000000000000000000000000000000001".
Definition key_2 : string :=
  "0000000000000000000000000000000000000000000000000000000000000002".

(** The generator in compressed form: 33 bytes, a valid compressed key. *)
Definition key_g_compressed : string := "02" +:+ key_g.

(** The points the three keys stand for. *)
Definition point_g : Reference.Point := {|
  Reference.X := 55066263022277343669578718895168534326250603453777594175500187360389116729240;
  Reference.Y := 32670510020758816978083085130507043184471273380659243275938904335757337482424
|}.
Definition point_1 : Reference.Point := {|
  Reference.X := 1;
  Reference.Y := 29896722852569046015560700294576055776214335159245303116488692907525646231534
|}.
Definition point_2 : Reference.Point := {|
  Reference.X := 2;
  Reference.Y := 46580984542418694471253469931035885126779956971428003686700937153791839982430
|}.

(** The flags of a create command: amount 10000, 100 blocks, 4 magic bytes,
    three covenant keys with quorum 2, network regtest. *)
Definition create_flags : Context :=
  with_string networkNameFlag "regtest"
    (with_string stakerPublicKeyFlag key_g
       (with_string finalityProviderKeyFlag key_1
          (with_int64 StakingAmountFlag 10000
             (with_int64 StakingTimeBlocksFlag 100
                (with_string magicBytesFlag "01020304"
                   (with_string_slice covenantMembersPksFlag [key_1; key_2; key_g]
                      (with_uint64 covenantQuorumFlag 2 no_flags))))))).

(** The flags of a check command: a transaction in hex, with the magic
    bytes, covenant keys, quorum and network of [create_flags]. *)
Definition check_flags : Context :=
  with_string stakingTransactionFlag
    ("010203040079be667ef9dcbbac55a06295ce870b07029bfcdb2dce28d959f2815b16f81798"
       +:+ "0000000000000000000000000000000000000000000000000000000000000001"
       +:+ "00640000000000002710" +:+ "0200000002"
       +:+ "0000000000000000000000000000000000000000000000000000000000000001"
       +:+ "0000000000000000000000000000000000000000000000000000000000000002"
       +:+ "79be667ef9dcbbac55a06295ce870b07029bfcdb2dce28d959f2815b16f81798")
    create_flags.

(** A create command with an unknown network name and a staker key that is
    no hex string. *)
Definition unknown_net_bad_key : Context :=
  with_string networkNameFlag "nonet" (with_string stakerPublicKeyFlag "zz" create_flags).

(** A check command with an unknown network name and magic bytes that are no
    hex string. *)
Definition unknown_net_bad_magic : Context :=
  with_string networkNameFlag "nonet" (with_string magicBytesFlag "zz" check_flags).

(** A create command with amount 0 and magic bytes that are no hex string;
    network and keys are valid. *)
Definition zero_amount_bad_magic : Context :=
  with_int64 StakingAmountFlag 0 (with_string magicBytesFlag "zz" create_flags).

(** A file system with two JSON documents: an empty object, and an object
    whose amount is a string. *)
Definition files : gmap string string :=
  {[ "stake.json" := "{}";
     "typed.json" := "{" +:+ Reference.quoted "staking_amount" +:+ ": "
                       +:+ Reference.quoted "x" +:+ "}" ]}%string.

(** The context of the JSON command for the file at [path]. *)
Definition json_command (path : string) : Context := {|
  StringFlags := ∅; StringSliceFlags := ∅; Int64Flags := ∅; Uint64Flags := ∅;
  Args := [path]
|}.

End Sample.

(** ** Reading traces *)

(** Whether an event is a call into the staking library (package
    btcstaking). *)
Definition is_staking_library_call `{External} (ev : Event) : bool :=
  match ev with
  | CallBuildV0IdentifiableStakingOutputsAndTx _ _ _ _ _ _ _ _ => true
  | CallParseV0StakingTx _ _ _ _ _ => true
  | _ => false
  end.

(** The covenant quorum an event hands to the staking library, if it is a
    call into it. *)
Definition quorum_of_call `{External} (ev : Event) : option Z :=
  match ev with
  | CallBuildV0IdentifiableStakingOutputsAndTx _ _ _ _ q _ _ _ => Some q
  | CallParseV0StakingTx _ _ _ q _ => Some q
  | _ => None
  end.

(** ** The order of the steps of a command *)

Definition error_of {A} (r : result A) : option error :=
  match r with
  | Ok _ => None
  | Err e => Some e
  end.

(** The error of the first step that fails, in the order of the list. *)
Fixpoint first_error (steps : list (option error)) : option error :=
  match steps with
  | [] => None
  | Some e :: _ => Some e
  | None :: steps' => first_error steps'
  end.

(** The steps of the create command before it calls the staking library, in
    the order of the source: network lookup, staker key, finality provider
    key, amount, staking time, magic bytes, covenant keys. *)
Definition create_steps `{External} (ctx : Context) : list (option error) :=
  [ error_of (GetBtcNetworkParams (ctx_String ctx networkNameFlag));
    error_of (parseSchnorPubKeyFromCliCtx ctx stakerPublicKeyFlag);
    error_of (parseSchnorPubKeyFromCliCtx ctx finalityProviderKeyFlag);
    error_of (parseStakingAmountFromCliCtx ctx);
    error_of (parseStakingTimeBlocksFromCliCtx ctx);
    error_of (parseMagicBytesFromCliCtx ctx);
    error_of (parseCovenantKeysFromCliCtx ctx) ].

(** The steps of the check command before it calls the staking library:
    network lookup, transaction decoding, magic bytes, covenant keys. *)
Definition check_steps `{External} (ctx : Context) : list (option error) :=
  [ error_of (GetBtcNetworkParams (ctx_String ctx networkNameFlag));
    error_of (NewBTCTxFromHex (ctx_String ctx stakingTransactionFlag));
    error_of (parseMagicBytesFromCliCtx ctx);
    error_of (parseCovenantKeysFromCliCtx ctx) ].

(** Whether [needle] occurs in [text]. *)
Definition mentions (needle text : string) : bool :=
  match String.index 0 needle text with
  | Some _ => true
  | None => false
  end.

(** ** Reading requests *)

(** What it means for a call [f] with optional offset and limit, made over
    the transport [Call] under the method [name], to send only what it is
    given.  The call returns what [Call] answers to the one request it is
    applied to, and that request has the method [name] and: no field when
    both arguments are nil; exactly the fields "offset" and "limit", with the
    given values, when both are given; a field present exactly when its
    argument is given; and no field holding a nil pointer. *)
Definition sends_only_given {Reply : Type} (Call : client.Request → result Reply)
    (name : string) (f : option Z → option Z → client.Request * result Reply) : Prop :=
  (let req := {| client.method := name; client.params := ∅ |} in
   f None None = (req, Call req))
  ∧ (∀ o l : Z,
       let req := {| client.method := name;
                     client.params := <["offset" := client.IntPtr (Some o)]>
                                        (<["limit" := client.IntPtr (Some l)]> ∅) |} in
       f (Some o) (Some l) = (req, Call req)
       ∧ dom (client.params req) = ({["offset"; "limit"]} : gset string)
       ∧ client.params req !! "offset" = Some (client.IntPtr (Some o))
       ∧ client.params req !! "limit" = Some (client.IntPtr (Some l)))
  ∧ (∀ offset limit : option Z,
       ∃ req,
         f offset limit = (req, Call req)
         ∧ client.method req = name
         ∧ (is_Some (client.params req !! "offset") ↔ is_Some offset)
         ∧ (is_Some (client.params req !! "limit") ↔ is_Some limit)
         ∧ ∀ k, client.params req !! k ≠ Some (client.IntPtr None)).

(** The transport that answers every request with the request itself: what
    a call returns over it is the request the transport was given. *)
Definition echo (req : client.Request) : result client.Request := Ok req.

(** ** Reading hex strings *)

(** Whether a character is a hexadecimal digit, of either case. *)
Definition is_hex_digit (c : ascii) : bool :=
  match hex.fromHexChar c with
  | Some _ => true
  | None => false
  end.

(** The first character of a string that is no hexadecimal digit. *)
Fixpoint first_non_hex (s : string) : option ascii :=
  match s with
  | EmptyString => None
  | String c rest => if is_hex_digit c then first_non_hex rest else Some c
  end.

(** The letters a to z as capitals and the capitals A to Z as small
    letters; other characters stay. *)
Definition to_upper (c : ascii) : ascii :=
  let n := N_of_ascii c in
  if (97 <=? n)%N && (n <=? 122)%N then ascii_of_N (n - 32) else c.

Definition to_lower (c : ascii) : ascii :=
  let n := N_of_ascii c in
  if (65 <=? n)%N && (n <=? 90)%N then ascii_of_N (n + 32) else c.

Fixpoint map_string (f : ascii → ascii) (s : string) : string :=
  match s with
  | EmptyString => EmptyString
  | String c rest => String (f c) (map_string f rest)
  end.

Definition ToUpper (s : string) : string := map_string to_upper s.
Definition ToLower (s : string) : string := map_string to_lower s.

(** Whether [f] keeps the value of the character [c] when [c] is a hex
    digit. *)
Definition same_digit (f : ascii → ascii) (c : ascii) : bool :=
  match hex.fromHexChar c, hex.fromHexChar (f c) with
  | Some a, Some b => (a =? b)%N
  | Some _, None => false
  | None, _ => true
  end.

(** Whether the hex digit [c] has a value below 16 that is written back as
    [c] in small letters. *)
Definition digit_written_back (c : ascii) : bool :=
  match hex.fromHexChar c with
  | Some a => (a <? 16)%N && Ascii.eqb (hex.hextable a) (to_lower c)
  | None => true
  end.

(** ** The x-only key decoder *)

(** Modelled from the spec: [schnorr.ParsePubKey] is declared in package
    btcec/schnorr, outside this repository.  The spec has every key as a
    32-byte x-only public key and asks for x-only (BIP-340 style) decoding,
    under which a 33-byte compressed key fails: an x-only decoder rejects
    every byte string that is not 32 bytes long. *)
Definition x_only_decoder `{External} : Prop :=
  ∀ pubKeyStr : list byte,
    length pubKeyStr ≠ 32%nat → is_ok (schnorr_ParsePubKey pubKeyStr) = false.

(** ** Covenant keys without the slice *)

(** The keys of a list of hex strings, left to right, or the error of the
    first string that does not parse: what [parseCovenantKeysFromSlice]
    computes, written as a recursion on the list. *)
Fixpoint parseKeys `{External} (pks : list string) : result (list PublicKey) :=
  match pks with
  | [] => Ok []
  | pk :: rest =>
      match parseSchnorPubKeyFromHex pk with
      | Err e => Err e
      | Ok k =>
          match parseKeys rest with
          | Err e => Err e
          | Ok ks => Ok (k :: ks)
          end
      end
  end.

(** ** Reading what a command printed and called *)

(** Whether an event is output of the command. *)
Definition is_output `{External} (ev : Event) : bool :=
  match ev with
  | Println _ => true
  | PrintRespJSON _ => true
  | _ => false
  end.

(** The events a create command can make, and those a check command can. *)
Definition is_create_event `{External} (ev : Event) : bool :=
  match ev with
  | CallGetBtcNetworkParams _ => true
  | CallBuildV0IdentifiableStakingOutputsAndTx _ _ _ _ _ _ _ _ => true
  | CallSerializeBtcTransaction _ => true
  | PrintRespJSON _ => true
  | _ => false
  end.

Definition is_check_event `{External} (ev : Event) : bool :=
  match ev with
  | CallGetBtcNetworkParams _ => true
  | CallNewBTCTxFromHex _ => true
  | CallParseV0StakingTx _ _ _ _ _ => true
  | Println _ => true
  | _ => false
  end.

(** How many events of a trace are calls into the staking library. *)
Definition library_calls `{External} (t : list Event) : nat :=
  length (List.filter is_staking_library_call t).

(** ** More sample inputs *)

Module Inputs.

(** The flags of [Sample.create_flags] with quorum 5, more than the three
    covenant keys. *)
Definition quorum_five : Context :=
  with_uint64 covenantQuorumFlag 5 Sample.create_flags.

(** The covenant keys of [Sample.create_flags], parsed. *)
Definition covenant : list (option Reference.Point) :=
  [Some Sample.point_1; Some Sample.point_2; Some Sample.point_g].

(** The flags of a check command whose transaction is the two bytes 0102. *)
Definition check_short : Context :=
  with_string stakingTransactionFlag "0102" Sample.create_flags.

End Inputs.

(** ** Proof steps shared by the properties *)

(** Unfold the traced computations down to pairs of a trace and a result. *)
Ltac unfold_M :=
  unfold mbind, mret, M_mbind, M_mret, M_bind, M_ret, logged, pure, trace, outcome in *.

(** Split a membership in an explicit list into its cases. *)
Ltac elem_cases H :=
  repeat (apply elem_of_cons in H as [->|H]); try (by apply elem_of_nil in H).


(** The 256 cases of a character. *)
Ltac ascii_cases c :=
  destruct c as [[] [] [] [] [] [] [] []].

(** * Properties *)

(** ** Worked examples of the parsers *)

Example hex_decode_ok :
  hex.DecodeString "01020304" = Ok ["001"; "002"; "003"; "004"]%byte.
Proof. reflexivity. Qed.

Example hex_decode_case : hex.DecodeString "aBcD" = Ok ["171"; "205"]%byte.
Proof. reflexivity. Qed.

Example hex_decode_odd : hex.DecodeString "abc" = Err ErrLength.
Proof. reflexivity. Qed.

Example hex_decode_bad : hex.DecodeString "0g1" = Err (InvalidByteError "g").
Proof. reflexivity. Qed.

Example hex_bad_msg :
  Error (InvalidByteError "g") = "encoding/hex: invalid byte: U+0067 'g'"%string.
Proof. reflexivity. Qed.

Example hex_encode_ok : hex.EncodeToString ["001"; "171"]%byte = "01ab"%string.
Proof. reflexivity. Qed.

Example magic_short :
  parseMagicBytesFromHex "0102" = Err (Errorf "magic bytes should be of length 4").
Proof. reflexivity. Qed.

Lemma ctx_Int64_with_int64 name v ctx : ctx_Int64 (with_int64 name v ctx) name = v.
Proof. unfold ctx_Int64, with_int64; simpl. by rewrite lookup_insert_eq. Qed.

Lemma ctx_Uint64_with_uint64 name v ctx : ctx_Uint64 (with_uint64 name v ctx) name = v.
Proof. unfold ctx_Uint64, with_uint64; simpl. by rewrite lookup_insert_eq. Qed.

(** ** Staking time *)

Lemma uint16_id (z : Z) : 0 <= z <= MaxUint16 → uint16 z = z.
Proof. unfold uint16, MaxUint16. intros Hz. apply Z.mod_small. lia. Qed.

(** C4. For a staking-time flag value [v]: when [v <= 0] the parser fails
    with the greater-than-0 message; when [v > 65535] it fails with the
    less-or-equal-65535 message; the two messages differ; when
    [1 <= v <= 65535], and so at the boundary values 1 and 65535, it succeeds
    and returns [v] itself, which fits 16 bits. *)
Theorem C4_staking_time_blocks (ctx : Context) :
  let v := ctx_Int64 ctx StakingTimeBlocksFlag in
  (v <= 0 →
     parseStakingTimeBlocksFromCliCtx ctx
     = Err (Errorf "staking time blocks should be greater than 0"))
  ∧ (65535 < v →
     parseStakingTimeBlocksFromCliCtx ctx
     = Err (Errorf "staking time blocks should be less or equal to 65535"))
  ∧ Errorf "staking time blocks should be greater than 0"
    ≠ Errorf "staking time blocks should be less or equal to 65535"
  ∧ (1 <= v <= 65535 →
     parseStakingTimeBlocksFromCliCtx ctx = Ok v ∧ 0 <= v < 2 ^ 16)
  ∧ (v = 1 → parseStakingTimeBlocksFromCliCtx ctx = Ok 1)
  ∧ (v = 65535 → parseStakingTimeBlocksFromCliCtx ctx = Ok 65535).
Proof.
  intros v. unfold parseStakingTimeBlocksFromCliCtx. fold v.
  assert (Hin : 1 <= v <= 65535 →
                (if v <=? 0
                 then Err (Errorf "staking time blocks should be greater than 0")
                 else if v >? MaxUint16
                      then Err (Errorf ("staking time blocks should be less or equal to "
                                          +:+ fmt_d MaxUint16))
                      else Ok (uint16 v)) = Ok v).
  { intros Hv.
    destruct (Z.leb_spec v 0) as [Hle|_]; [lia|].
    rewrite Z.gtb_ltb. destruct (Z.ltb_spec MaxUint16 v) as [Hlt|_].
    - unfold MaxUint16 in Hlt. lia.
    - rewrite uint16_id; [done | unfold MaxUint16; lia]. }
  repeat split.
  - intros Hv. destruct (Z.leb_spec v 0); [done | lia].
  - intros Hv. destruct (Z.leb_spec v 0); [lia|].
    rewrite Z.gtb_ltb. destruct (Z.ltb_spec MaxUint16 v) as [_|Hge].
    + reflexivity.
    + unfold MaxUint16 in Hge. lia.
  - discriminate.
  - by apply Hin.
  - lia.
  - lia.
  - intros Hv. rewrite Hin; [by rewrite Hv | lia].
  - intros Hv. rewrite Hin; [by rewrite Hv | lia].
Qed.

Lemma C4_staking_time_blocks_witness :
  parseStakingTimeBlocksFromCliCtx (with_int64 StakingTimeBlocksFlag 0 no_flags)
  = Err (Errorf "staking time blocks should be greater than 0")
  ∧ parseStakingTimeBlocksFromCliCtx (with_int64 StakingTimeBlocksFlag 65536 no_flags)
    = Err (Errorf "staking time blocks should be less or equal to 65535")
  ∧ parseStakingTimeBlocksFromCliCtx (with_int64 StakingTimeBlocksFlag 1 no_flags) = Ok 1
  ∧ parseStakingTimeBlocksFromCliCtx (with_int64 StakingTimeBlocksFlag 65535 no_flags)
    = Ok 65535.
Proof.
  split; [|split; [|split]].
  - apply (C4_staking_time_blocks (with_int64 StakingTimeBlocksFlag 0 no_flags)).
    vm_compute. discriminate.
  - apply (C4_staking_time_blocks (with_int64 StakingTimeBlocksFlag 65536 no_flags)).
    vm_compute. reflexivity.
  - apply (C4_staking_time_blocks (with_int64 StakingTimeBlocksFlag 1 no_flags)).
    vm_compute. reflexivity.
  - apply (C4_staking_time_blocks (with_int64 StakingTimeBlocksFlag 65535 no_flags)).
    vm_compute. reflexivity.
Defined.

(** ** Staking amount *)

(** C5. For a staking-amount flag value [amt <= 0] the parser fails with
    exactly the message "staking amount should be greater than 0"; the create
    command then fails and its trace holds no call into the staking library,
    and when the network and the two keys are accepted its error is that
    message.  For [amt > 0] the parser succeeds and returns [amt]. *)
Theorem C5_staking_amount `{External} (ctx : Context) :
  let amt := ctx_Int64 ctx StakingAmountFlag in
  (amt <= 0 →
     parseStakingAmountFromCliCtx ctx
     = Err (Errorf "staking amount should be greater than 0")
     ∧ (∀ ev, ev ∈ trace (createPhase1StakingTransaction ctx) →
              is_staking_library_call ev = false)
     ∧ is_ok (outcome (createPhase1StakingTransaction ctx)) = false
     ∧ (∀ net stakerPk fpPk,
          GetBtcNetworkParams (ctx_String ctx networkNameFlag) = Ok net →
          parseSchnorPubKeyFromCliCtx ctx stakerPublicKeyFlag = Ok stakerPk →
          parseSchnorPubKeyFromCliCtx ctx finalityProviderKeyFlag = Ok fpPk →
          outcome (createPhase1StakingTransaction ctx)
          = Err (Errorf "staking amount should be greater than 0")))
  ∧ (0 < amt → parseStakingAmountFromCliCtx ctx = Ok amt).
Proof.
  intros amt. split.
  - intros Hamt.
    assert (Hparse : parseStakingAmountFromCliCtx ctx
                     = Err (Errorf "staking amount should be greater than 0")).
    { unfold parseStakingAmountFromCliCtx. fold amt.
      destruct (Z.leb_spec amt 0); [done | lia]. }
    split; [exact Hparse|].
    unfold createPhase1StakingTransaction. rewrite Hparse.
    destruct (GetBtcNetworkParams (ctx_String ctx networkNameFlag)) as [net|e0];
      destruct (parseSchnorPubKeyFromCliCtx ctx stakerPublicKeyFlag) as [spk|e1];
      destruct (parseSchnorPubKeyFromCliCtx ctx finalityProviderKeyFlag) as [fpk|e2];
      unfold_M; simpl;
      (split; [intros ev Hev; apply list_elem_of_singleton in Hev; by subst ev|]);
      (split; [reflexivity|]); intros net' s' f' ? ? ?; congruence.
  - intros Hamt. unfold parseStakingAmountFromCliCtx. fold amt.
    destruct (Z.leb_spec amt 0); [lia | done].
Qed.

Lemma C5_staking_amount_witness :
  let ctx0 := with_int64 StakingAmountFlag 0 Sample.create_flags in
  parseStakingAmountFromCliCtx ctx0
  = Err (Errorf "staking amount should be greater than 0")
  ∧ outcome (createPhase1StakingTransaction (H := Reference.reference_External) ctx0)
    = Err (Errorf "staking amount should be greater than 0")
  ∧ parseStakingAmountFromCliCtx Sample.create_flags = Ok 10000.
Proof.
  intros ctx0.
  destruct (C5_staking_amount (H := Reference.reference_External) ctx0) as [Hle _].
  destruct (C5_staking_amount (H := Reference.reference_External) Sample.create_flags)
    as [_ Hgt].
  destruct Hle as (Hparse & _ & _ & Hcreate); [vm_compute; discriminate|].
  split; [exact Hparse|]. split.
  - eapply Hcreate; vm_compute; reflexivity.
  - apply Hgt. vm_compute. reflexivity.
Defined.

(** ** Magic bytes *)

(** C6. For a hex string that decodes to [bs]: when the length of [bs] is
    not the magic-byte length, [parseMagicBytesFromHex] fails with the error
    whose message names that length, 4; when it is, the parser succeeds and
    returns [bs]. *)
Theorem C6_magic_bytes_length (magicBytesHex : string) (bs : list byte) :
  hex.DecodeString magicBytesHex = Ok bs →
  (length bs ≠ MagicBytesLen →
     parseMagicBytesFromHex magicBytesHex
     = Err (Errorf ("magic bytes should be of length " +:+ fmt_d (Z.of_nat MagicBytesLen)))
     ∧ fmt_d (Z.of_nat MagicBytesLen) = "4"%string)
  ∧ (length bs = MagicBytesLen → parseMagicBytesFromHex magicBytesHex = Ok bs).
Proof.
  intros Hdec. unfold parseMagicBytesFromHex. rewrite Hdec. split.
  - intros Hne. destruct (Nat.eqb_spec (length bs) MagicBytesLen); [done|].
    simpl. split; reflexivity.
  - intros Heq. destruct (Nat.eqb_spec (length bs) MagicBytesLen); [done|done].
Qed.

Lemma C6_magic_bytes_length_witness :
  parseMagicBytesFromHex "0102" = Err (Errorf "magic bytes should be of length 4")
  ∧ parseMagicBytesFromHex "0102030405" = Err (Errorf "magic bytes should be of length 4")
  ∧ parseMagicBytesFromHex "01020304" = Ok ["001"; "002"; "003"; "004"]%byte.
Proof.
  split; [|split].
  - apply (C6_magic_bytes_length "0102" ["001"; "002"]%byte); [reflexivity|].
    simpl. discriminate.
  - apply (C6_magic_bytes_length "0102030405" ["001"; "002"; "003"; "004"; "005"]%byte);
      [reflexivity|]. simpl. discriminate.
  - apply (C6_magic_bytes_length "01020304" ["001"; "002"; "003"; "004"]%byte);
      reflexivity.
Defined.

(** ** Public keys *)

Section KeyParsing.
Context `{External}.

Lemma parseCovenantKeysLoop_cons (i : nat) (fpPk : string) (rest : list string)
    (acc : list (option PublicKey)) :
  parseCovenantKeysLoop i (fpPk :: rest) acc
  = match parseSchnorPubKeyFromHex fpPk with
    | Err e => Err e
    | Ok k => parseCovenantKeysLoop (S i) rest (<[i := Some k]> acc)
    end.
Proof.
  simpl. unfold parseSchnorPubKeyFromHex.
  destruct (hex.DecodeString fpPk) as [b|e]; [|done].
  by destruct (schnorr_ParsePubKey b).
Qed.

(** The loop fills the slots from [length done] on, in order. *)
Lemma parseCovenantKeysLoop_ok (rest : list string) (ks : list PublicKey) :
  Forall2 (λ s k, parseSchnorPubKeyFromHex s = Ok k) rest ks →
  ∀ done : list (option PublicKey),
    parseCovenantKeysLoop (length done) rest (done ++ replicate (length rest) None)
    = Ok (done ++ (Some <$> ks)).
Proof.
  induction 1 as [|s k rest ks Hs _ IH]; intros done.
  - simpl. by rewrite !app_nil_r.
  - rewrite parseCovenantKeysLoop_cons, Hs. simpl.
    replace (length done) with (length done + 0)%nat at 2 by lia.
    rewrite insert_app_r. simpl.
    replace (done ++ Some k :: replicate (length rest) None)
      with ((done ++ [Some k]) ++ replicate (length rest) None)
      by (by rewrite <- app_assoc).
    replace (S (length done)) with (length (done ++ [Some k]))
      by (rewrite length_app; simpl; lia).
    rewrite IH. by rewrite <- app_assoc.
Qed.

(** The loop stops at the first element that does not parse, whatever the
    slots hold. *)
Lemma parseCovenantKeysLoop_err (pre : list string) (ks : list PublicKey)
    (bad : string) (post : list string) (e : error) :
  Forall2 (λ s k, parseSchnorPubKeyFromHex s = Ok k) pre ks →
  parseSchnorPubKeyFromHex bad = Err e →
  ∀ i acc, parseCovenantKeysLoop i (pre ++ bad :: post) acc = Err e.
Proof.
  intros Hpre Hbad. induction Hpre as [|s k pre ks Hs _ IH]; intros i acc.
  - simpl app. by rewrite parseCovenantKeysLoop_cons, Hbad.
  - simpl app. rewrite parseCovenantKeysLoop_cons, Hs. apply IH.
Qed.

Lemma parseCovenantKeysLoop_bad_member (pkHex : string) (l : list string) :
  is_ok (parseSchnorPubKeyFromHex pkHex) = false →
  pkHex ∈ l →
  ∀ i acc, is_ok (parseCovenantKeysLoop i l acc) = false.
Proof.
  intros Hbad Hin. induction l as [|s l IH]; intros i acc.
  - by apply elem_of_nil in Hin.
  - rewrite parseCovenantKeysLoop_cons.
    destruct (parseSchnorPubKeyFromHex s) as [k|e] eqn:Hs; [|done].
    apply elem_of_cons in Hin as [->|Hin].
    + by rewrite Hs in Hbad.
    + by apply IH.
Qed.

(** A create command that succeeds passed every step. *)
Lemma create_ok_inv (ctx : Context) :
  is_ok (outcome (createPhase1StakingTransaction ctx)) = true →
  is_ok (GetBtcNetworkParams (ctx_String ctx networkNameFlag)) = true
  ∧ is_ok (parseSchnorPubKeyFromCliCtx ctx stakerPublicKeyFlag) = true
  ∧ is_ok (parseSchnorPubKeyFromCliCtx ctx finalityProviderKeyFlag) = true
  ∧ is_ok (parseStakingAmountFromCliCtx ctx) = true
  ∧ is_ok (parseStakingTimeBlocksFromCliCtx ctx) = true
  ∧ is_ok (parseMagicBytesFromCliCtx ctx) = true
  ∧ is_ok (parseCovenantKeysFromCliCtx ctx) = true.
Proof.
  unfold createPhase1StakingTransaction.
  destruct (GetBtcNetworkParams _); [|done].
  destruct (parseSchnorPubKeyFromCliCtx ctx stakerPublicKeyFlag); [|done].
  destruct (parseSchnorPubKeyFromCliCtx ctx finalityProviderKeyFlag); [|done].
  destruct (parseStakingAmountFromCliCtx ctx); [|done].
  destruct (parseStakingTimeBlocksFromCliCtx ctx); [|done].
  destruct (parseMagicBytesFromCliCtx ctx); [|done].
  destruct (parseCovenantKeysFromCliCtx ctx); [|done].
  done.
Qed.

(** A check command that succeeds passed every step. *)
Lemma check_ok_inv (ctx : Context) :
  is_ok (outcome (checkPhase1StakingTransaction ctx)) = true →
  is_ok (GetBtcNetworkParams (ctx_String ctx networkNameFlag)) = true
  ∧ is_ok (NewBTCTxFromHex (ctx_String ctx stakingTransactionFlag)) = true
  ∧ is_ok (parseMagicBytesFromCliCtx ctx) = true
  ∧ is_ok (parseCovenantKeysFromCliCtx ctx) = true.
Proof.
  unfold checkPhase1StakingTransaction.
  destruct (GetBtcNetworkParams _); [|done].
  destruct (NewBTCTxFromHex _); [|done].
  destruct (parseMagicBytesFromCliCtx ctx); [|done].
  destruct (parseCovenantKeysFromCliCtx ctx); [|done].
  done.
Qed.

End KeyParsing.

(** The reference decoder rejects every byte string that is not 32 bytes
    long, and so every compressed key, which has 33. *)
Lemma Reference_ParsePubKey_length (pubKeyStr : list byte) :
  length pubKeyStr ≠ Reference.PubKeyBytesLen →
  is_ok (Reference.ParsePubKey pubKeyStr) = false.
Proof.
  intros Hlen. unfold Reference.ParsePubKey.
  by destruct (Nat.eqb_spec (length pubKeyStr) Reference.PubKeyBytesLen).
Qed.

(** C7. Every key input is decoded with [schnorr.ParsePubKey], the x-only
    decoder: the result of [parseSchnorPubKeyFromHex] on a hex string is the
    decoder's result on the bytes the string stands for.  With an x-only
    decoder, which takes 32 bytes and nothing else, a hex string of any
    other number of bytes, so the 33 bytes of a compressed key, fails
    everywhere: [parseSchnorPubKeyFromHex] returns the decoder's error; the
    create command fails when the string is its staker key or its finality
    provider key; [parseCovenantKeysFromSlice] fails on every list that
    contains the string, and so do the create and check commands when the
    string is among their covenant keys. *)
Theorem C7_x_only_keys `{External} (pkHex : string) (pkBytes : list byte) :
  x_only_decoder →
  hex.DecodeString pkHex = Ok pkBytes →
  length pkBytes ≠ 32%nat →
  parseSchnorPubKeyFromHex pkHex = schnorr_ParsePubKey pkBytes
  ∧ (∃ e, schnorr_ParsePubKey pkBytes = Err e ∧ parseSchnorPubKeyFromHex pkHex = Err e)
  ∧ (∀ ctx, ctx_String ctx stakerPublicKeyFlag = pkHex →
            is_ok (outcome (createPhase1StakingTransaction ctx)) = false)
  ∧ (∀ ctx, ctx_String ctx finalityProviderKeyFlag = pkHex →
            is_ok (outcome (createPhase1StakingTransaction ctx)) = false)
  ∧ (∀ l, pkHex ∈ l → is_ok (parseCovenantKeysFromSlice l) = false)
  ∧ (∀ ctx, pkHex ∈ ctx_StringSlice ctx covenantMembersPksFlag →
            is_ok (outcome (createPhase1StakingTransaction ctx)) = false
            ∧ is_ok (outcome (checkPhase1StakingTransaction ctx)) = false).
Proof.
  intros Hxonly Hhex Hlen.
  assert (Hsame : parseSchnorPubKeyFromHex pkHex = schnorr_ParsePubKey pkBytes).
  { unfold parseSchnorPubKeyFromHex. rewrite Hhex.
    by destruct (schnorr_ParsePubKey pkBytes). }
  assert (Hkey : ∃ e, schnorr_ParsePubKey pkBytes = Err e).
  { pose proof (Hxonly pkBytes Hlen) as Hno.
    destruct (schnorr_ParsePubKey pkBytes) as [pk|e]; [done | by exists e]. }
  destruct Hkey as [e Hkey].
  assert (Hone : parseSchnorPubKeyFromHex pkHex = Err e) by (by rewrite Hsame).
  assert (Hlist : ∀ l, pkHex ∈ l → is_ok (parseCovenantKeysFromSlice l) = false).
  { intros l Hin. unfold parseCovenantKeysFromSlice.
    apply parseCovenantKeysLoop_bad_member with pkHex; [by rewrite Hone | done]. }
  split; [exact Hsame|]. split; [by exists e|].
  split; [|split; [|split; [exact Hlist|]]].
  - intros ctx Hflag.
    destruct (is_ok (outcome (createPhase1StakingTransaction ctx))) eqn:Hok; [|done].
    apply create_ok_inv in Hok as (_ & Hs & _).
    unfold parseSchnorPubKeyFromCliCtx in Hs. by rewrite Hflag, Hone in Hs.
  - intros ctx Hflag.
    destruct (is_ok (outcome (createPhase1StakingTransaction ctx))) eqn:Hok; [|done].
    apply create_ok_inv in Hok as (_ & _ & Hf & _).
    unfold parseSchnorPubKeyFromCliCtx in Hf. by rewrite Hflag, Hone in Hf.
  - intros ctx Hin. split.
    + destruct (is_ok (outcome (createPhase1StakingTransaction ctx))) eqn:Hok; [|done].
      apply create_ok_inv in Hok as (_ & _ & _ & _ & _ & _ & Hc).
      unfold parseCovenantKeysFromCliCtx in Hc. by rewrite Hlist in Hc.
    + destruct (is_ok (outcome (checkPhase1StakingTransaction ctx))) eqn:Hok; [|done].
      apply check_ok_inv in Hok as (_ & _ & _ & Hc).
      unfold parseCovenantKeysFromCliCtx in Hc. by rewrite Hlist in Hc.
Qed.

(** The compressed generator, 33 bytes, on the reference decoder, which is
    x-only: the same 32 bytes without the leading 02 are a key. *)
Lemma C7_x_only_keys_witness :
  x_only_decoder (H := Reference.reference_External)
  ∧ parseSchnorPubKeyFromHex (H := Reference.reference_External) Sample.key_g
    = Ok Sample.point_g
  ∧ parseSchnorPubKeyFromHex (H := Reference.reference_External) Sample.key_g_compressed
    = Err (LibError "bad pubkey byte string size (want 32, have 33)")
  ∧ is_ok (outcome (createPhase1StakingTransaction (H := Reference.reference_External)
                      (with_string stakerPublicKeyFlag Sample.key_g_compressed
                         Sample.create_flags))) = false
  ∧ is_ok (parseCovenantKeysFromSlice (H := Reference.reference_External)
             [Sample.key_1; Sample.key_g_compressed]) = false.
Proof.
  assert (Hxonly : x_only_decoder (H := Reference.reference_External)).
  { intros pubKeyStr Hlen. apply Reference_ParsePubKey_length. exact Hlen. }
  destruct (C7_x_only_keys (H := Reference.reference_External)
              Sample.key_g_compressed
              (Reference.Z_to_bytes 33
                 (2 * 2 ^ 256
                  + 55066263022277343669578718895168534326250603453777594175500187360389116729240))
              Hxonly)
    as (Hsame & _ & Hstaker & _ & Hlist & _).
  - vm_compute. reflexivity.
  - vm_compute. discriminate.
  - split; [exact Hxonly|]. split; [vm_compute; reflexivity|]. split; [|split].
    + rewrite Hsame. vm_compute. reflexivity.
    + apply Hstaker. vm_compute. reflexivity.
    + apply Hlist. apply elem_of_cons; right. apply elem_of_cons; left. reflexivity.
Defined.

(** ** Covenant keys *)

(** C8. [parseCovenantKeysFromSlice] decodes each element on its own, as
    [parseSchnorPubKeyFromHex] does.  When every element decodes, the result
    has the length of the input and holds at each position the key of the
    element at that position, duplicates included.  When the elements before
    some element decode and that element does not, the result is the error of
    that element, and no keys are returned. *)
Theorem C8_covenant_keys `{External} (covenantMembersPks : list string) :
  (∀ ks : list PublicKey,
     Forall2 (λ s k, parseSchnorPubKeyFromHex s = Ok k) covenantMembersPks ks →
     parseCovenantKeysFromSlice covenantMembersPks = Ok (Some <$> ks)
     ∧ length ks = length covenantMembersPks
     ∧ ∀ i s, covenantMembersPks !! i = Some s →
              ∃ k, ks !! i = Some k ∧ parseSchnorPubKeyFromHex s = Ok k)
  ∧ (∀ (pre : list string) (ks : list PublicKey) (bad : string)
       (post : list string) (e : error),
       covenantMembersPks = pre ++ bad :: post →
       Forall2 (λ s k, parseSchnorPubKeyFromHex s = Ok k) pre ks →
       parseSchnorPubKeyFromHex bad = Err e →
       parseCovenantKeysFromSlice covenantMembersPks = Err e).
Proof.
  split.
  - intros ks Hall. split; [|split].
    + unfold parseCovenantKeysFromSlice.
      apply (parseCovenantKeysLoop_ok covenantMembersPks ks Hall []).
    + symmetry. by eapply Forall2_length.
    + intros i s Hi.
      destruct (Forall2_lookup_l _ _ _ _ _ Hall Hi) as (k & Hk & Hs). eauto.
  - intros pre ks bad post e -> Hpre Hbad. unfold parseCovenantKeysFromSlice.
    by eapply parseCovenantKeysLoop_err.
Qed.

Lemma C8_covenant_keys_witness :
  parseCovenantKeysFromSlice (H := Reference.reference_External)
    [Sample.key_1; Sample.key_1; Sample.key_g]
  = Ok [Some Sample.point_1; Some Sample.point_1; Some Sample.point_g]
  ∧ parseCovenantKeysFromSlice (H := Reference.reference_External)
      [Sample.key_1; "zz"%string; Sample.key_g_compressed]
    = Err (InvalidByteError "z").
Proof.
  split.
  - apply (proj1 (C8_covenant_keys (H := Reference.reference_External)
                    [Sample.key_1; Sample.key_1; Sample.key_g])
             [Sample.point_1; Sample.point_1; Sample.point_g]).
    apply List.Forall2_cons; [vm_compute; reflexivity|].
    apply List.Forall2_cons; [vm_compute; reflexivity|].
    apply List.Forall2_cons; [vm_compute; reflexivity|].
    apply List.Forall2_nil.
  - apply (proj2 (C8_covenant_keys (H := Reference.reference_External)
                    [Sample.key_1; "zz"%string; Sample.key_g_compressed])
             [Sample.key_1] [Sample.point_1] "zz"%string [Sample.key_g_compressed]).
    + reflexivity.
    + apply List.Forall2_cons; [vm_compute; reflexivity | apply List.Forall2_nil].
    + vm_compute. reflexivity.
Defined.

(** ** Optional parameters of the RPC calls *)

Example validators_offset_only :
  client.params
    (client.BabylonValidators (Reply := unit)
       (λ _, Err (LibError "connection refused")) (Some 20) None).1
  = {["offset" := client.IntPtr (Some 20)]}.
Proof. reflexivity. Qed.

Example stake_request :
  dom (client.params
         (client.Stake (Reply := unit) (λ _, Ok tt) "addr" 10000 "pk" 100).1)
  = ({["stakerAddress"; "stakingAmount"; "validatorPk"; "stakingTimeBlocks"]}
       : gset string).
Proof. simpl. rewrite !dom_insert_L, dom_empty_L. set_solver. Qed.

(** C9. [BabylonValidators] and [ListStakingTransactions] apply the
    transport to one request and return its answer, and the parameter object
    of that request is built the same way by both: it is empty when offset
    and limit are both nil; when both are given it is the object with the two
    fields "offset" and "limit" holding the given values, and those are its
    only fields; in every case a field is present exactly when its argument
    is given, and no field holds a nil pointer, which would be sent as null.
    This holds over every transport, and so over the one that answers each
    request with the request itself, where the result of the call is the
    very request that was sent. *)
Theorem C9_optional_parameters {Reply : Type} (Call : client.Request → result Reply) :
  sends_only_given Call "babylon_validators" (client.BabylonValidators Call)
  ∧ sends_only_given Call "list_staking_transactions" (client.ListStakingTransactions Call)
  ∧ sends_only_given echo "babylon_validators" (client.BabylonValidators echo)
  ∧ sends_only_given echo "list_staking_transactions"
      (client.ListStakingTransactions echo).
Proof.
  assert (Hid : ∀ (R : Type) (r : result R),
            match r with Err err => Err err | Ok result => Ok result end = r)
    by (by intros R []).
  assert (Hboth : ∀ (R : Type) (C : client.Request → result R),
            sends_only_given C "babylon_validators" (client.BabylonValidators C)
            ∧ sends_only_given C "list_staking_transactions"
                (client.ListStakingTransactions C)).
  { intros R C. split; unfold sends_only_given.
    all: split; [cbv zeta; unfold client.BabylonValidators, client.ListStakingTransactions;
                 by rewrite Hid|].
    all: split.
    all: try (intros o l; cbv zeta; split;
              [unfold client.BabylonValidators, client.ListStakingTransactions;
               by rewrite Hid|];
              simpl; split; [rewrite !dom_insert_L, dom_empty_L; set_solver|];
              split; [by rewrite lookup_insert_eq|];
              rewrite lookup_insert_ne; [by rewrite lookup_insert_eq | done]).
    all: intros offset limit; eexists; split;
      [unfold client.BabylonValidators, client.ListStakingTransactions;
       rewrite Hid; reflexivity|].
    all: split; [reflexivity|].
    all: destruct offset as [o|], limit as [l|]; simpl; (split; [|split]).
    all: try (intros k Hk;
              repeat (apply lookup_insert_Some in Hk as [[_ Hk]|[_ Hk]]; [done|]);
              by rewrite lookup_empty in Hk).
    all: rewrite ?lookup_insert_eq, ?lookup_empty;
         try (rewrite lookup_insert_ne by done; rewrite ?lookup_insert_eq, ?lookup_empty).
    all: split; intros [? ?]; try done; eauto. }
  destruct (Hboth Reply Call) as [Hv Hl].
  destruct (Hboth client.Request echo) as [Hv' Hl'].
  done.
Qed.

(** ** Covenant quorum *)

Section Quorum.
Context `{External}.

Lemma create_with_quorum (ctx : Context) (v : Z) :
  createPhase1StakingTransaction (with_uint64 covenantQuorumFlag v ctx)
  = (let net := ctx_String ctx networkNameFlag in
     currentParams ← logged (CallGetBtcNetworkParams net) (GetBtcNetworkParams net);
     stakerPk ← pure (parseSchnorPubKeyFromCliCtx ctx stakerPublicKeyFlag);
     fpPk ← pure (parseSchnorPubKeyFromCliCtx ctx finalityProviderKeyFlag);
     stakingAmount ← pure (parseStakingAmountFromCliCtx ctx);
     stakingTimeBlocks ← pure (parseStakingTimeBlocksFromCliCtx ctx);
     magicBytes ← pure (parseMagicBytesFromCliCtx ctx);
     covenantMembersPks ← pure (parseCovenantKeysFromCliCtx ctx);
     resp ← MakeCreatePhase1StakingTxResponse magicBytes stakerPk fpPk
              covenantMembersPks (uint32 v) stakingTimeBlocks stakingAmount
              currentParams;
     logged (PrintRespJSON resp) (Ok tt)).
Proof.
  unfold createPhase1StakingTransaction. by rewrite ctx_Uint64_with_uint64.
Qed.

Lemma check_with_quorum (ctx : Context) (v : Z) :
  checkPhase1StakingTransaction (with_uint64 covenantQuorumFlag v ctx)
  = (let net := ctx_String ctx networkNameFlag in
     currentParams ← logged (CallGetBtcNetworkParams net) (GetBtcNetworkParams net);
     let stakingTxHex := ctx_String ctx stakingTransactionFlag in
     tx ← logged (CallNewBTCTxFromHex stakingTxHex) (NewBTCTxFromHex stakingTxHex);
     magicBytes ← pure (parseMagicBytesFromCliCtx ctx);
     covenantMembersPks ← pure (parseCovenantKeysFromCliCtx ctx);
     _ ← logged
           (CallParseV0StakingTx tx magicBytes covenantMembersPks (uint32 v) currentParams)
           (ParseV0StakingTx tx magicBytes covenantMembersPks (uint32 v) currentParams);
     logged (Println "Provided transaction is valid staking transaction!") (Ok tt)).
Proof.
  unfold checkPhase1StakingTransaction. by rewrite ctx_Uint64_with_uint64.
Qed.

End Quorum.

(** C10. Let [v] be the covenant-quorum flag.  When the steps before the
    library succeed, the create command applies
    [BuildV0IdentifiableStakingOutputsAndTx] to the quorum [v mod 2^32] and
    the check command applies [ParseV0StakingTx] to it: the command returns
    what the library returns on that quorum, the builder's error or the
    serializer's for create and the verifier's answer for check, and the
    call it logs carries that quorum.  No call of either command carries
    another quorum; and two flag values that agree modulo [2^32] give the
    same run of either command, events and outcome alike, so a value of
    [2^32] or more is not rejected but behaves as its low 32 bits. *)
Theorem C10_quorum_truncation `{External} (ctx : Context) :
  let v := ctx_Uint64 ctx covenantQuorumFlag in
  (∀ ev q, ev ∈ trace (createPhase1StakingTransaction ctx) →
           quorum_of_call ev = Some q → q = v mod 2 ^ 32)
  ∧ (∀ ev q, ev ∈ trace (checkPhase1StakingTransaction ctx) →
             quorum_of_call ev = Some q → q = v mod 2 ^ 32)
  ∧ (∀ net stakerPk fpPk amt tb magicBytes cov,
       GetBtcNetworkParams (ctx_String ctx networkNameFlag) = Ok net →
       parseSchnorPubKeyFromCliCtx ctx stakerPublicKeyFlag = Ok stakerPk →
       parseSchnorPubKeyFromCliCtx ctx finalityProviderKeyFlag = Ok fpPk →
       parseStakingAmountFromCliCtx ctx = Ok amt →
       parseStakingTimeBlocksFromCliCtx ctx = Ok tb →
       parseMagicBytesFromCliCtx ctx = Ok magicBytes →
       parseCovenantKeysFromCliCtx ctx = Ok cov →
       CallBuildV0IdentifiableStakingOutputsAndTx magicBytes stakerPk fpPk cov
         (v mod 2 ^ 32) tb amt net
       ∈ trace (createPhase1StakingTransaction ctx)
       ∧ outcome (createPhase1StakingTransaction ctx)
         = match BuildV0IdentifiableStakingOutputsAndTx magicBytes stakerPk fpPk cov
                   (v mod 2 ^ 32) tb amt net with
           | Err e => Err e
           | Ok tx =>
               match SerializeBtcTransaction tx with
               | Err e => Err e
               | Ok _ => Ok tt
               end
           end)
  ∧ (∀ net tx magicBytes cov,
       GetBtcNetworkParams (ctx_String ctx networkNameFlag) = Ok net →
       NewBTCTxFromHex (ctx_String ctx stakingTransactionFlag) = Ok tx →
       parseMagicBytesFromCliCtx ctx = Ok magicBytes →
       parseCovenantKeysFromCliCtx ctx = Ok cov →
       CallParseV0StakingTx tx magicBytes cov (v mod 2 ^ 32) net
       ∈ trace (checkPhase1StakingTransaction ctx)
       ∧ outcome (checkPhase1StakingTransaction ctx)
         = ParseV0StakingTx tx magicBytes cov (v mod 2 ^ 32) net)
  ∧ (∀ v1 v2, v1 mod 2 ^ 32 = v2 mod 2 ^ 32 →
       createPhase1StakingTransaction (with_uint64 covenantQuorumFlag v1 ctx)
       = createPhase1StakingTransaction (with_uint64 covenantQuorumFlag v2 ctx)
       ∧ checkPhase1StakingTransaction (with_uint64 covenantQuorumFlag v1 ctx)
         = checkPhase1StakingTransaction (with_uint64 covenantQuorumFlag v2 ctx)).
Proof.
  intros v. split; [|split; [|split; [|split]]].
  - intros ev q Hev Hq. revert Hev.
    unfold createPhase1StakingTransaction, MakeCreatePhase1StakingTxResponse. fold v.
    destruct (GetBtcNetworkParams _) as [net|]; [|unfold_M; simpl; intros Hev; elem_cases Hev; done].
    destruct (parseSchnorPubKeyFromCliCtx ctx stakerPublicKeyFlag) as [spk|];
      [|unfold_M; simpl; intros Hev; elem_cases Hev; done].
    destruct (parseSchnorPubKeyFromCliCtx ctx finalityProviderKeyFlag) as [fpk|];
      [|unfold_M; simpl; intros Hev; elem_cases Hev; done].
    destruct (parseStakingAmountFromCliCtx ctx) as [amt|];
      [|unfold_M; simpl; intros Hev; elem_cases Hev; done].
    destruct (parseStakingTimeBlocksFromCliCtx ctx) as [tb|];
      [|unfold_M; simpl; intros Hev; elem_cases Hev; done].
    destruct (parseMagicBytesFromCliCtx ctx) as [mb|];
      [|unfold_M; simpl; intros Hev; elem_cases Hev; done].
    destruct (parseCovenantKeysFromCliCtx ctx) as [cov|];
      [|unfold_M; simpl; intros Hev; elem_cases Hev; done].
    unfold_M.
    destruct (BuildV0IdentifiableStakingOutputsAndTx _ _ _ _ _ _ _ _) as [tx|];
      [destruct (SerializeBtcTransaction tx)|];
      simpl; intros Hev; elem_cases Hev; simpl in Hq; try done;
      unfold uint32 in Hq; congruence.
  - intros ev q Hev Hq. revert Hev.
    unfold checkPhase1StakingTransaction. fold v.
    destruct (GetBtcNetworkParams _) as [net|]; [|unfold_M; simpl; intros Hev; elem_cases Hev; done].
    destruct (NewBTCTxFromHex _) as [tx|]; [|unfold_M; simpl; intros Hev; elem_cases Hev; done].
    destruct (parseMagicBytesFromCliCtx ctx) as [mb|];
      [|unfold_M; simpl; intros Hev; elem_cases Hev; done].
    destruct (parseCovenantKeysFromCliCtx ctx) as [cov|];
      [|unfold_M; simpl; intros Hev; elem_cases Hev; done].
    unfold_M.
    destruct (ParseV0StakingTx _ _ _ _ _);
      simpl; intros Hev; elem_cases Hev; simpl in Hq; try done;
      unfold uint32 in Hq; congruence.
  - intros net spk fpk amt tb mb cov Hnet Hs Hf Ha Ht Hm Hc.
    unfold createPhase1StakingTransaction, MakeCreatePhase1StakingTxResponse. fold v.
    rewrite Hnet, Hs, Hf, Ha, Ht, Hm, Hc. unfold_M. unfold uint32.
    destruct (BuildV0IdentifiableStakingOutputsAndTx _ _ _ _ _ _ _ _) as [tx|];
      [destruct (SerializeBtcTransaction tx)|];
      simpl; (split; [apply elem_of_cons; right; apply elem_of_cons; by left | done]).
  - intros net tx mb cov Hnet Htx Hm Hc.
    unfold checkPhase1StakingTransaction. fold v.
    rewrite Hnet, Htx, Hm, Hc. unfold_M. unfold uint32.
    destruct (ParseV0StakingTx _ _ _ _ _) as [[]|];
      simpl; (split; [|done]); apply elem_of_cons; right; apply elem_of_cons; right;
      apply elem_of_cons; by left.
  - intros v1 v2 Hv. rewrite !create_with_quorum, !check_with_quorum.
    unfold uint32. by rewrite Hv.
Qed.

(** The quorum [2^32 + 2] on the sample flags, which hold three covenant
    keys: the reference library refuses a quorum above the number of keys,
    and the create command succeeds, since the library is given 2. *)
Lemma C10_quorum_truncation_witness :
  CallBuildV0IdentifiableStakingOutputsAndTx (H := Reference.reference_External)
    ["001"; "002"; "003"; "004"]%byte Sample.point_g Sample.point_1
    [Some Sample.point_1; Some Sample.point_2; Some Sample.point_g]
    2 100 10000 RegressionNetParams
  ∈ trace (createPhase1StakingTransaction
             (with_uint64 covenantQuorumFlag (2 ^ 32 + 2) Sample.create_flags))
  ∧ outcome (createPhase1StakingTransaction (H := Reference.reference_External)
               (with_uint64 covenantQuorumFlag (2 ^ 32 + 2) Sample.create_flags))
    = Ok tt
  ∧ is_ok (BuildV0IdentifiableStakingOutputsAndTx (External := Reference.reference_External)
             ["001"; "002"; "003"; "004"]%byte Sample.point_g Sample.point_1
             [Some Sample.point_1; Some Sample.point_2; Some Sample.point_g]
             (2 ^ 32 + 2) 100 10000 RegressionNetParams) = false
  ∧ createPhase1StakingTransaction (H := Reference.reference_External)
      (with_uint64 covenantQuorumFlag (2 ^ 32 + 2) Sample.create_flags)
    = createPhase1StakingTransaction
        (with_uint64 covenantQuorumFlag 2 Sample.create_flags)
  ∧ checkPhase1StakingTransaction (H := Reference.reference_External)
      (with_uint64 covenantQuorumFlag (2 ^ 32 + 2) Sample.check_flags)
    = checkPhase1StakingTransaction
        (with_uint64 covenantQuorumFlag 2 Sample.check_flags).
Proof.
  destruct (C10_quorum_truncation (H := Reference.reference_External)
              (with_uint64 covenantQuorumFlag (2 ^ 32 + 2) Sample.create_flags))
    as (_ & _ & Hcall & _).
  rewrite ctx_Uint64_with_uint64 in Hcall.
  destruct (Hcall RegressionNetParams Sample.point_g Sample.point_1 10000 100
              ["001"; "002"; "003"; "004"]%byte
              [Some Sample.point_1; Some Sample.point_2; Some Sample.point_g]
              ltac:(vm_compute; reflexivity) ltac:(vm_compute; reflexivity)
              ltac:(vm_compute; reflexivity) ltac:(vm_compute; reflexivity)
              ltac:(vm_compute; reflexivity) ltac:(vm_compute; reflexivity)
              ltac:(vm_compute; reflexivity)) as [Hev Hout].
  split; [exact Hev|]. split; [|split; [|split]].
  - rewrite Hout. vm_compute. reflexivity.
  - vm_compute. reflexivity.
  - destruct (C10_quorum_truncation (H := Reference.reference_External)
                Sample.create_flags) as (_ & _ & _ & _ & Heq).
    destruct (Heq (2 ^ 32 + 2) 2) as [Hcreate _]; [vm_compute; reflexivity|].
    exact Hcreate.
  - destruct (C10_quorum_truncation (H := Reference.reference_External)
                Sample.check_flags) as (_ & _ & _ & _ & Heq).
    destruct (Heq (2 ^ 32 + 2) 2) as [_ Hcheck]; [vm_compute; reflexivity|].
    exact Hcheck.
Defined.

(** ** The order in which failures are reported *)

(** C2, counterexample.  A create command whose staker key is no hex string
    and whose network name is unknown returns the unknown-network error, not
    the parse error of the key, and it has looked the network up; likewise a
    check command whose magic bytes are no hex string and whose network name
    is unknown.  A create command with valid network and keys, amount 0 and
    magic bytes that are no hex string returns the error of the amount, not
    the parse error of the magic bytes. *)
Lemma C2_counterexample :
  (parseSchnorPubKeyFromCliCtx (H := Reference.reference_External)
     Sample.unknown_net_bad_key stakerPublicKeyFlag = Err (InvalidByteError "z")
   ∧ createPhase1StakingTransaction (H := Reference.reference_External)
       Sample.unknown_net_bad_key
     = ([CallGetBtcNetworkParams "nonet"], Err (Errorf "unknown network nonet")))
  ∧ (parseMagicBytesFromCliCtx Sample.unknown_net_bad_magic = Err (InvalidByteError "z")
     ∧ checkPhase1StakingTransaction (H := Reference.reference_External)
         Sample.unknown_net_bad_magic
       = ([CallGetBtcNetworkParams "nonet"], Err (Errorf "unknown network nonet")))
  ∧ (parseMagicBytesFromCliCtx Sample.zero_amount_bad_magic = Err (InvalidByteError "z")
     ∧ outcome (createPhase1StakingTransaction (H := Reference.reference_External)
                  Sample.zero_amount_bad_magic)
       = Err (Errorf "staking amount should be greater than 0")).
Proof.
  split; [split; reflexivity|]. split; [split; reflexivity|].
  split; [reflexivity | vm_compute; reflexivity].
Qed.

(** C2, as amended.  Each command returns the error of the first step that
    fails, in the order of its source: for create the network lookup, the
    staker key, the finality provider key, the amount, the staking time, the
    magic bytes, the covenant keys; for check the network lookup, the
    transaction, the magic bytes, the covenant keys.  The network lookup is
    the first event of either command. *)
Theorem C2_first_failure_in_order `{External} (ctx : Context) (e : error) :
  (first_error (create_steps ctx) = Some e →
     outcome (createPhase1StakingTransaction ctx) = Err e)
  ∧ (first_error (check_steps ctx) = Some e →
     outcome (checkPhase1StakingTransaction ctx) = Err e)
  ∧ head (trace (createPhase1StakingTransaction ctx))
    = Some (CallGetBtcNetworkParams (ctx_String ctx networkNameFlag))
  ∧ head (trace (checkPhase1StakingTransaction ctx))
    = Some (CallGetBtcNetworkParams (ctx_String ctx networkNameFlag)).
Proof.
  unfold create_steps, check_steps, createPhase1StakingTransaction,
    checkPhase1StakingTransaction.
  split; [|split; [|split]].
  - destruct (GetBtcNetworkParams _); simpl; [|congruence].
    destruct (parseSchnorPubKeyFromCliCtx ctx stakerPublicKeyFlag); simpl; [|congruence].
    destruct (parseSchnorPubKeyFromCliCtx ctx finalityProviderKeyFlag); simpl; [|congruence].
    destruct (parseStakingAmountFromCliCtx ctx); simpl; [|congruence].
    destruct (parseStakingTimeBlocksFromCliCtx ctx); simpl; [|congruence].
    destruct (parseMagicBytesFromCliCtx ctx); simpl; [|congruence].
    destruct (parseCovenantKeysFromCliCtx ctx); simpl; [discriminate|congruence].
  - destruct (GetBtcNetworkParams _); simpl; [|congruence].
    destruct (NewBTCTxFromHex _); simpl; [|congruence].
    destruct (parseMagicBytesFromCliCtx ctx); simpl; [|congruence].
    destruct (parseCovenantKeysFromCliCtx ctx); simpl; [discriminate|congruence].
  - unfold_M. destruct (GetBtcNetworkParams _); [|reflexivity].
    match goal with |- context [let '(_, _) := ?m in _] => destruct m end.
    reflexivity.
  - unfold_M. destruct (GetBtcNetworkParams _); [|reflexivity].
    match goal with |- context [let '(_, _) := ?m in _] => destruct m end.
    reflexivity.
Qed.

Lemma C2_first_failure_in_order_witness :
  outcome (createPhase1StakingTransaction (H := Reference.reference_External)
             Sample.unknown_net_bad_key)
  = Err (Errorf "unknown network nonet")
  ∧ outcome (checkPhase1StakingTransaction (H := Reference.reference_External)
               Sample.unknown_net_bad_magic)
    = Err (Errorf "unknown network nonet").
Proof.
  split.
  - destruct (C2_first_failure_in_order (H := Reference.reference_External)
                Sample.unknown_net_bad_key (Errorf "unknown network nonet"))
      as (Hcreate & _).
    apply Hcreate. reflexivity.
  - destruct (C2_first_failure_in_order (H := Reference.reference_External)
                Sample.unknown_net_bad_magic (Errorf "unknown network nonet"))
      as (_ & Hcheck & _).
    apply Hcheck. reflexivity.
Defined.

(** ** The JSON input file *)

Lemma nonempty_length (s : string) : s ≠ EmptyString → Nat.eqb (String.length s) 0 = false.
Proof. by destruct s. Qed.

(** C3, counterexample.  The file stake.json holds the empty object, a JSON
    document in which every field is missing: decoding reports no error, the
    command goes on to the builder, and the error it returns is the builder's
    complaint about the empty staker key, which does not name the path.  The
    file typed.json holds an object whose amount is a string and whose other
    fields are missing: the command fails with a decode failure whose message
    names the content and the structure and not the path. *)
Lemma C3_counterexample :
  Reference.parse_document "{}" = Some (Reference.JObject [])
  ∧ outcome (createPhase1StakingTransactionFromJson
               (H0 := Reference.reference_JsonInput Sample.files)
               (Sample.json_command "stake.json"))
    = Err (LibError "bad pubkey byte string size (want 32, have 0)")
  ∧ mentions "stake.json" "bad pubkey byte string size (want 32, have 0)" = false
  ∧ match outcome (createPhase1StakingTransactionFromJson
                     (H0 := Reference.reference_JsonInput Sample.files)
                     (Sample.json_command "typed.json")) with
    | Err (Wrapf msg _) =>
        mentions "error parsing file content" msg && negb (mentions "typed.json" msg)
    | _ => false
    end = true.
Proof.
  split; [vm_compute; reflexivity|].
  split; [vm_compute; reflexivity|].
  split; vm_compute; reflexivity.
Qed.

(** C3, as amended.  For an input file that exists and is read with content
    [bz]: when [json.Unmarshal] reports an error, the command fails with the
    decode failure that wraps it, whose message is made of the content, the
    structure as decoding left it and the decoder's message; when it reports
    none, the command does what [ToCreatePhase1StakingTxResponse] does on the
    decoded structure and prints the response; and the command run on
    another path with the same content gives the same result, so no part of
    it names the path. *)
Theorem C3_json_input `{JsonInput} (ctx : Context) (bz : string) :
  ctx_Args_First ctx ≠ EmptyString →
  os_FileExists (ctx_Args_First ctx) = true →
  os_ReadFile (ctx_Args_First ctx) = Ok bz →
  (∀ input err,
     json_Unmarshal bz InputBtcStakingTx_zero = (input, Some err) →
     createPhase1StakingTransactionFromJson ctx
     = ([], Err (Wrapf ("error parsing file content " +:+ bz +:+ " to struct "
                          +:+ fmt_plus_v input +:+ ": " +:+ Error err) err)))
  ∧ (∀ input,
       json_Unmarshal bz InputBtcStakingTx_zero = (input, None) →
       createPhase1StakingTransactionFromJson ctx
       = (resp ← ToCreatePhase1StakingTxResponse input;
          logged (PrintRespJSON resp) (Ok tt)))
  ∧ (∀ ctx',
       ctx_Args_First ctx' ≠ EmptyString →
       os_FileExists (ctx_Args_First ctx') = true →
       os_ReadFile (ctx_Args_First ctx') = Ok bz →
       createPhase1StakingTransactionFromJson ctx'
       = createPhase1StakingTransactionFromJson ctx).
Proof.
  intros Hne Hex Hrd.
  assert (Hrun : ∀ c, ctx_Args_First c ≠ EmptyString →
                      os_FileExists (ctx_Args_First c) = true →
                      os_ReadFile (ctx_Args_First c) = Ok bz →
                      createPhase1StakingTransactionFromJson c
                      = match json_Unmarshal bz InputBtcStakingTx_zero with
                        | (input, Some err) =>
                            pure (Err (Wrapf ("error parsing file content " +:+ bz
                                                +:+ " to struct " +:+ fmt_plus_v input
                                                +:+ ": " +:+ Error err) err))
                        | (input, None) =>
                            resp ← ToCreatePhase1StakingTxResponse input;
                            logged (PrintRespJSON resp) (Ok tt)
                        end).
  { intros c Hc1 Hc2 Hc3. unfold createPhase1StakingTransactionFromJson.
    rewrite (nonempty_length _ Hc1), Hc2, Hc3. reflexivity. }
  split; [|split].
  - intros input err Hdec. rewrite (Hrun ctx Hne Hex Hrd), Hdec. reflexivity.
  - intros input Hdec. rewrite (Hrun ctx Hne Hex Hrd), Hdec. reflexivity.
  - intros ctx' Hne' Hex' Hrd'.
    rewrite (Hrun ctx Hne Hex Hrd), (Hrun ctx' Hne' Hex' Hrd'). reflexivity.
Qed.

Lemma C3_json_input_witness :
  createPhase1StakingTransactionFromJson
    (H0 := Reference.reference_JsonInput
             (<["copy.json" := "{}"%string]> Sample.files))
    (Sample.json_command "copy.json")
  = createPhase1StakingTransactionFromJson
      (H0 := Reference.reference_JsonInput
               (<["copy.json" := "{}"%string]> Sample.files))
      (Sample.json_command "stake.json").
Proof.
  destruct (C3_json_input
              (H0 := Reference.reference_JsonInput
                       (<["copy.json" := "{}"%string]> Sample.files))
              (Sample.json_command "stake.json") "{}"%string) as (_ & _ & Hsame).
  - vm_compute. discriminate.
  - vm_compute. reflexivity.
  - vm_compute. reflexivity.
  - apply Hsame.
    + vm_compute. discriminate.
    + vm_compute. reflexivity.
    + vm_compute. reflexivity.
Defined.

(** * Further properties of the code *)

(** ** Hex strings *)

(** Induction on strings two characters at a time, as the decoder reads. *)
Lemma string_pair_ind (P : string → Prop) :
  P EmptyString →
  (∀ c, P (String c EmptyString)) →
  (∀ c d r, P r → P (String c (String d r))) →
  ∀ s, P s.
Proof.
  intros H0 H1 H2. fix IH 1.
  intros [|c [|d r]]; [apply H0 | apply H1 | apply H2, IH].
Qed.

Lemma DecodeString_invalid (s : string) (c : ascii) :
  first_non_hex s = Some c → hex.DecodeString s = Err (InvalidByteError c).
Proof.
  induction s as [|p|p q r IH] using string_pair_ind; simpl; unfold is_hex_digit.
  - discriminate.
  - destruct (hex.fromHexChar p); [discriminate | congruence].
  - destruct (hex.fromHexChar p); [|congruence].
    destruct (hex.fromHexChar q); [|congruence].
    intros Hr. by rewrite (IH Hr).
Qed.

Lemma DecodeString_odd (s : string) :
  first_non_hex s = None → Nat.odd (String.length s) = true →
  hex.DecodeString s = Err ErrLength.
Proof.
  induction s as [|p|p q r IH] using string_pair_ind; simpl; unfold is_hex_digit.
  - discriminate.
  - by destruct (hex.fromHexChar p).
  - destruct (hex.fromHexChar p); [|discriminate].
    destruct (hex.fromHexChar q); [|discriminate].
    intros Hr Hodd. rewrite IH; [done | done |].
    by rewrite <- Hodd.
Qed.

Lemma DecodeString_even (s : string) :
  first_non_hex s = None → Nat.even (String.length s) = true →
  ∃ bs, hex.DecodeString s = Ok bs ∧ String.length s = (2 * length bs)%nat.
Proof.
  induction s as [|p|p q r IH] using string_pair_ind; simpl; unfold is_hex_digit.
  - by exists [].
  - discriminate.
  - destruct (hex.fromHexChar p); [|discriminate].
    destruct (hex.fromHexChar q); [|discriminate].
    intros Hr Hev. destruct (IH Hr Hev) as (bs & -> & Hlen).
    eexists. split; [reflexivity|]. simpl. lia.
Qed.

Lemma DecodeString_ok_inv (s : string) (bs : list byte) :
  hex.DecodeString s = Ok bs →
  first_non_hex s = None ∧ String.length s = (2 * length bs)%nat.
Proof.
  destruct (first_non_hex s) as [c|] eqn:Hc.
  - intros H. by rewrite (DecodeString_invalid _ _ Hc) in H.
  - destruct (Nat.even (String.length s)) eqn:Hev.
    + destruct (DecodeString_even s Hc Hev) as (bs' & Hd & Hlen).
      rewrite Hd. intros [= <-]. done.
    + intros H. rewrite DecodeString_odd in H; [done | done |].
      by rewrite <- Nat.negb_even, Hev.
Qed.

Lemma DecodeString_Encode_cons (b : byte) (rest : string) :
  hex.DecodeString (hex.EncodeToString [b] +:+ rest)
  = match hex.DecodeString rest with
    | Err e => Err e
    | Ok bs => Ok (b :: bs)
    end.
Proof. destruct b; reflexivity. Qed.

(** Decoding undoes encoding. *)
Lemma DecodeString_EncodeToString (bs : list byte) :
  hex.DecodeString (hex.EncodeToString bs) = Ok bs.
Proof.
  induction bs as [|b bs IH]; [reflexivity|].
  change (hex.EncodeToString (b :: bs))
    with (hex.EncodeToString [b] +:+ hex.EncodeToString bs).
  by rewrite DecodeString_Encode_cons, IH.
Qed.

(** X1. Whenever [MakeCreatePhase1StakingTxResponse] returns a response,
    the staking library built a transaction, the serializer gave its bytes,
    and the response's hex string decodes with [hex.DecodeString] to exactly
    those bytes; the string has two characters per byte and holds hex digits
    only. *)
Theorem X1_response_hex_decodes `{External}
    (magicBytes : list byte) (stakerPk fpPk : PublicKey)
    (covenantMembersPks : list (option PublicKey))
    (covenantQuorum stakingTimeBlocks stakingAmount : Z) (net : Params)
    (resp : CreatePhase1StakingTxResponse) :
  outcome (MakeCreatePhase1StakingTxResponse magicBytes stakerPk fpPk
             covenantMembersPks covenantQuorum stakingTimeBlocks stakingAmount net)
  = Ok resp →
  ∃ tx serializedTx,
    BuildV0IdentifiableStakingOutputsAndTx magicBytes stakerPk fpPk
      covenantMembersPks covenantQuorum stakingTimeBlocks stakingAmount net = Ok tx
    ∧ SerializeBtcTransaction tx = Ok serializedTx
    ∧ hex.DecodeString (StakingTxHex resp) = Ok serializedTx
    ∧ String.length (StakingTxHex resp) = (2 * length serializedTx)%nat
    ∧ first_non_hex (StakingTxHex resp) = None.
Proof.
  unfold MakeCreatePhase1StakingTxResponse. unfold_M.
  destruct (BuildV0IdentifiableStakingOutputsAndTx _ _ _ _ _ _ _ _) as [tx|] eqn:Hbuild;
    [|done].
  destruct (SerializeBtcTransaction tx) as [bytes|] eqn:Hser; [|done].
  simpl. intros [= <-]. exists tx, bytes.
  pose proof (DecodeString_EncodeToString bytes) as Hdec.
  destruct (DecodeString_ok_inv _ _ Hdec) as [Hhex Hlen].
  cbn [StakingTxHex]. done.
Qed.

Lemma X1_response_hex_decodes_witness :
  ∃ tx serializedTx,
    Reference.Build ["001"; "002"; "003"; "004"]%byte Sample.point_g Sample.point_1
      [Some Sample.point_1] 1 100 10000 RegressionNetParams = Ok tx
    ∧ Ok tx = Ok serializedTx
    ∧ hex.DecodeString
        (StakingTxHex
           {| StakingTxHex :=
                "010203040079be667ef9dcbbac55a06295ce870b07029bfcdb2dce28d959f2815b16f81798"
                  +:+ "0000000000000000000000000000000000000000000000000000000000000001"
                  +:+ "00640000000000002710" +:+ "0200000001"
                  +:+ "0000000000000000000000000000000000000000000000000000000000000001" |})
      = Ok serializedTx
    ∧ String.length
        (StakingTxHex
           {| StakingTxHex :=
                "010203040079be667ef9dcbbac55a06295ce870b07029bfcdb2dce28d959f2815b16f81798"
                  +:+ "0000000000000000000000000000000000000000000000000000000000000001"
                  +:+ "00640000000000002710" +:+ "0200000001"
                  +:+ "0000000000000000000000000000000000000000000000000000000000000001" |})
      = (2 * length serializedTx)%nat
    ∧ first_non_hex
        (StakingTxHex
           {| StakingTxHex :=
                "010203040079be667ef9dcbbac55a06295ce870b07029bfcdb2dce28d959f2815b16f81798"
                  +:+ "0000000000000000000000000000000000000000000000000000000000000001"
                  +:+ "00640000000000002710" +:+ "0200000001"
                  +:+ "0000000000000000000000000000000000000000000000000000000000000001" |})
      = None.
Proof.
  exact (X1_response_hex_decodes (H := Reference.reference_External)
           ["001"; "002"; "003"; "004"]%byte Sample.point_g Sample.point_1
           [Some Sample.point_1] 1 100 10000 RegressionNetParams _
           ltac:(vm_compute; reflexivity)).
Defined.

(** ** Magic bytes and keys as hex strings *)

(** X2. [parseMagicBytesFromHex] accepts a string exactly when it is 8 hex
    digits, and then returns 4 bytes.  Otherwise the error tells why: the
    first character that is no hex digit; or an odd number of digits; or,
    for an even number of digits other than 8, the length message.  The
    empty string is of the last kind. *)
Theorem X2_magic_bytes_eight_digits (magicBytesHex : string) :
  (is_ok (parseMagicBytesFromHex magicBytesHex) = true
   ↔ String.length magicBytesHex = 8%nat ∧ first_non_hex magicBytesHex = None)
  ∧ (∀ bs, parseMagicBytesFromHex magicBytesHex = Ok bs → length bs = 4%nat)
  ∧ (∀ c, first_non_hex magicBytesHex = Some c →
          parseMagicBytesFromHex magicBytesHex = Err (InvalidByteError c))
  ∧ (first_non_hex magicBytesHex = None →
     Nat.odd (String.length magicBytesHex) = true →
     parseMagicBytesFromHex magicBytesHex = Err ErrLength)
  ∧ (first_non_hex magicBytesHex = None →
     Nat.even (String.length magicBytesHex) = true →
     String.length magicBytesHex ≠ 8%nat →
     parseMagicBytesFromHex magicBytesHex
     = Err (Errorf "magic bytes should be of length 4"))
  ∧ parseMagicBytesFromHex EmptyString = Err (Errorf "magic bytes should be of length 4").
Proof.
  assert (Hok : ∀ bs, parseMagicBytesFromHex magicBytesHex = Ok bs →
                      hex.DecodeString magicBytesHex = Ok bs ∧ length bs = 4%nat).
  { intros bs. unfold parseMagicBytesFromHex.
    destruct (hex.DecodeString magicBytesHex) as [bs'|]; [|done].
    destruct (Nat.eqb_spec (length bs') MagicBytesLen) as [Hlen|]; [|done].
    simpl. intros [= <-]. done. }
  assert (Hinv : ∀ c, first_non_hex magicBytesHex = Some c →
                      parseMagicBytesFromHex magicBytesHex = Err (InvalidByteError c)).
  { intros c Hc. unfold parseMagicBytesFromHex. by rewrite (DecodeString_invalid _ _ Hc). }
  assert (Hodd : first_non_hex magicBytesHex = None →
                 Nat.odd (String.length magicBytesHex) = true →
                 parseMagicBytesFromHex magicBytesHex = Err ErrLength).
  { intros Hh Ho. unfold parseMagicBytesFromHex. by rewrite DecodeString_odd. }
  assert (Heven : first_non_hex magicBytesHex = None →
                  Nat.even (String.length magicBytesHex) = true →
                  ∃ bs, hex.DecodeString magicBytesHex = Ok bs
                        ∧ String.length magicBytesHex = (2 * length bs)%nat).
  { apply DecodeString_even. }
  split; [|split; [|split; [|split; [|split]]]].
  - split.
    + destruct (parseMagicBytesFromHex magicBytesHex) as [bs|] eqn:Hp; [|done].
      intros _. destruct (Hok bs eq_refl) as [Hdec Hlen].
      destruct (DecodeString_ok_inv _ _ Hdec) as [Hhex Hl]. split; [lia | done].
    + intros [Hl Hhex]. destruct (Heven Hhex) as (bs & Hdec & Hlen).
      { by rewrite Hl. }
      unfold parseMagicBytesFromHex. rewrite Hdec.
      destruct (Nat.eqb_spec (length bs) MagicBytesLen) as [|Hne]; [done|].
      unfold MagicBytesLen in Hne. lia.
  - intros bs Hp. by destruct (Hok bs Hp).
  - exact Hinv.
  - exact Hodd.
  - intros Hhex Hev Hl. destruct (Heven Hhex Hev) as (bs & Hdec & Hlen).
    unfold parseMagicBytesFromHex. rewrite Hdec.
    destruct (Nat.eqb_spec (length bs) MagicBytesLen) as [Heq|]; [|done].
    unfold MagicBytesLen in Heq. lia.
  - reflexivity.
Qed.

Lemma X2_magic_bytes_eight_digits_witness :
  parseMagicBytesFromHex "0102030g" = Err (InvalidByteError "g")
  ∧ parseMagicBytesFromHex "0102030" = Err ErrLength
  ∧ parseMagicBytesFromHex "0102" = Err (Errorf "magic bytes should be of length 4")
  ∧ is_ok (parseMagicBytesFromHex "0a0B0c0D") = true.
Proof.
  destruct (X2_magic_bytes_eight_digits "0102030g") as (_ & _ & Hbad & _).
  destruct (X2_magic_bytes_eight_digits "0102030") as (_ & _ & _ & Hodd & _).
  destruct (X2_magic_bytes_eight_digits "0102") as (_ & _ & _ & _ & Hshort & _).
  destruct (X2_magic_bytes_eight_digits "0a0B0c0D") as ([_ Hok] & _).
  split; [apply Hbad; reflexivity|].
  split; [apply Hodd; reflexivity|].
  split; [apply Hshort; [reflexivity | reflexivity | discriminate]|].
  apply Hok. split; reflexivity.
Defined.

(** X3. [parseSchnorPubKeyFromHex] rejects a string that is no hex string
    before the key decoder sees anything, whatever the decoder is: with the
    first character that is no hex digit, or with the odd-length error.  For
    an even number of hex digits the decoder is given one byte per two
    digits and its answer is returned as it is. *)
Theorem X3_key_hex_errors `{External} (pkHex : string) :
  (∀ c, first_non_hex pkHex = Some c →
        parseSchnorPubKeyFromHex pkHex = Err (InvalidByteError c))
  ∧ (first_non_hex pkHex = None → Nat.odd (String.length pkHex) = true →
     parseSchnorPubKeyFromHex pkHex = Err ErrLength)
  ∧ (first_non_hex pkHex = None → Nat.even (String.length pkHex) = true →
     ∃ pkBytes, hex.DecodeString pkHex = Ok pkBytes
                ∧ String.length pkHex = (2 * length pkBytes)%nat
                ∧ parseSchnorPubKeyFromHex pkHex = schnorr_ParsePubKey pkBytes).
Proof.
  unfold parseSchnorPubKeyFromHex. split; [|split].
  - intros c Hc. by rewrite (DecodeString_invalid _ _ Hc).
  - intros Hh Ho. by rewrite DecodeString_odd.
  - intros Hh He. destruct (DecodeString_even _ Hh He) as (bs & Hdec & Hlen).
    exists bs. rewrite Hdec. split; [done|]. split; [done|].
    by destruct (schnorr_ParsePubKey bs).
Qed.

Lemma X3_key_hex_errors_witness :
  parseSchnorPubKeyFromHex (H := Reference.reference_External) "79be66zz"
  = Err (InvalidByteError "z")
  ∧ parseSchnorPubKeyFromHex (H := Reference.reference_External) "79be667"
    = Err ErrLength
  ∧ ∃ pkBytes, hex.DecodeString Sample.key_g = Ok pkBytes
               ∧ String.length Sample.key_g = (2 * length pkBytes)%nat
               ∧ parseSchnorPubKeyFromHex (H := Reference.reference_External) Sample.key_g
                 = Reference.ParsePubKey pkBytes.
Proof.
  destruct (X3_key_hex_errors (H := Reference.reference_External) "79be66zz")
    as (Hbad & _).
  destruct (X3_key_hex_errors (H := Reference.reference_External) "79be667")
    as (_ & Hodd & _).
  destruct (X3_key_hex_errors (H := Reference.reference_External) Sample.key_g)
    as (_ & _ & Heven).
  split; [apply Hbad; reflexivity|].
  split; [apply Hodd; reflexivity|].
  apply Heven; reflexivity.
Defined.

(** A property of characters that holds of each of the 256 holds of all. *)
Lemma ascii_forall (P : ascii → bool) :
  forallb P (map ascii_of_nat (seq 0 256)) = true → ∀ c, P c = true.
Proof.
  intros Hall c. rewrite forallb_forall in Hall. apply Hall.
  rewrite <- (ascii_nat_embedding c). apply in_map, in_seq.
  pose proof (nat_ascii_bounded c). lia.
Qed.

Lemma fromHexChar_to_upper (c : ascii) :
  is_hex_digit c = true → hex.fromHexChar (to_upper c) = hex.fromHexChar c.
Proof.
  pose proof (ascii_forall (same_digit to_upper) ltac:(vm_compute; reflexivity) c) as Hc.
  unfold same_digit, is_hex_digit in *.
  destruct (hex.fromHexChar c); [|done].
  destruct (hex.fromHexChar (to_upper c)); [|done].
  intros _. f_equal. symmetry. by apply N.eqb_eq.
Qed.

Lemma fromHexChar_to_lower (c : ascii) :
  is_hex_digit c = true → hex.fromHexChar (to_lower c) = hex.fromHexChar c.
Proof.
  pose proof (ascii_forall (same_digit to_lower) ltac:(vm_compute; reflexivity) c) as Hc.
  unfold same_digit, is_hex_digit in *.
  destruct (hex.fromHexChar c); [|done].
  destruct (hex.fromHexChar (to_lower c)); [|done].
  intros _. f_equal. symmetry. by apply N.eqb_eq.
Qed.

(** A hex digit has a value below 16 and is written back as its small
    letter. *)
Lemma fromHexChar_hextable (c : ascii) (a : N) :
  hex.fromHexChar c = Some a → (a < 16)%N ∧ hex.hextable a = to_lower c.
Proof.
  pose proof (ascii_forall digit_written_back ltac:(vm_compute; reflexivity) c) as Hc.
  unfold digit_written_back in Hc. intros Ha. rewrite Ha in Hc.
  apply andb_true_iff in Hc as [Hlt Heq].
  split; [by apply N.ltb_lt | by apply Ascii.eqb_eq].
Qed.

(** A byte made of two digit values gives them back. *)
Lemma nibbles (a b : N) :
  (a < 16)%N → (b < 16)%N →
  Byte.to_N (byte_of_ascii (ascii_of_N (N.lor (N.shiftl a 4) b))) = N.lor (N.shiftl a 4) b
  ∧ N.shiftr (N.lor (N.shiftl a 4) b) 4 = a
  ∧ N.land (N.lor (N.shiftl a 4) b) 15 = b.
Proof.
  intros Ha Hb.
  rewrite <- (N2Nat.id a), <- (N2Nat.id b).
  assert (Hi : (N.to_nat a < 16)%nat) by lia.
  assert (Hj : (N.to_nat b < 16)%nat) by lia.
  revert Hi Hj. generalize (N.to_nat a) (N.to_nat b). clear a b Ha Hb.
  intros i j Hi Hj.
  do 16 (destruct i as [|i];
         [do 16 (destruct j as [|j]; [vm_compute; done|]); lia|]).
  lia.
Qed.

Section HexCase.
Variable f : ascii → ascii.
Hypothesis f_value : ∀ c, is_hex_digit c = true → hex.fromHexChar (f c) = hex.fromHexChar c.

(** Decoding does not see a change of characters that keeps the digits'
    values. *)
Lemma DecodeString_map_string (s : string) :
  first_non_hex s = None → hex.DecodeString (map_string f s) = hex.DecodeString s.
Proof.
  induction s as [|p|p q r IH] using string_pair_ind; simpl.
  - done.
  - destruct (is_hex_digit p) eqn:Hp; [|done]. intros _. rewrite (f_value p Hp).
    unfold is_hex_digit in Hp. by destruct (hex.fromHexChar p).
  - destruct (is_hex_digit p) eqn:Hp; [|done].
    destruct (is_hex_digit q) eqn:Hq; [|done].
    intros Hr. rewrite (f_value p Hp), (f_value q Hq), (IH Hr).
    unfold is_hex_digit in Hp, Hq.
    destruct (hex.fromHexChar p); [|done]. by destruct (hex.fromHexChar q).
Qed.

End HexCase.

Lemma DecodeString_ToUpper (s : string) :
  first_non_hex s = None → hex.DecodeString (ToUpper s) = hex.DecodeString s.
Proof.
  apply DecodeString_map_string, fromHexChar_to_upper.
Qed.

Lemma DecodeString_ToLower (s : string) :
  first_non_hex s = None → hex.DecodeString (ToLower s) = hex.DecodeString s.
Proof.
  apply DecodeString_map_string, fromHexChar_to_lower.
Qed.

(** Encoding what a string decodes to gives the string in small letters. *)
Lemma EncodeToString_DecodeString (s : string) :
  ∀ bs, hex.DecodeString s = Ok bs → hex.EncodeToString bs = ToLower s.
Proof.
  induction s as [|p|p q r IH] using string_pair_ind; simpl.
  - by intros bs [= <-].
  - intros bs. by destruct (hex.fromHexChar p).
  - intros bs.
    destruct (hex.fromHexChar p) as [a|] eqn:Hp; [|done].
    destruct (hex.fromHexChar q) as [b|] eqn:Hq; [|done].
    destruct (hex.DecodeString r) as [bs'|]; [|done].
    intros [= <-].
    destruct (fromHexChar_hextable _ _ Hp) as [Ha Hpa].
    destruct (fromHexChar_hextable _ _ Hq) as [Hb Hqb].
    destruct (nibbles a b Ha Hb) as (Hn & Hhi & Hlo).
    cbn [hex.EncodeToString]. rewrite Hn, Hhi, Hlo, Hpa, Hqb.
    unfold ToLower. simpl. f_equal. f_equal. by apply IH.
Qed.

Lemma parseCovenantKeysLoop_map (f : string → string) `{External} (l : list string) :
  Forall (λ t, parseSchnorPubKeyFromHex (f t) = parseSchnorPubKeyFromHex t) l →
  ∀ i acc, parseCovenantKeysLoop i (f <$> l) acc = parseCovenantKeysLoop i l acc.
Proof.
  induction 1 as [|t l Ht _ IH]; intros i acc; [done|].
  rewrite fmap_cons, !parseCovenantKeysLoop_cons, Ht.
  destruct (parseSchnorPubKeyFromHex t); [apply IH | done].
Qed.

(** X4. Hex digits may be written in either case: for a string of hex
    digits, [parseSchnorPubKeyFromHex] and [parseMagicBytesFromHex] give the
    same result on the string in capitals and in small letters as on the
    string itself, and [parseCovenantKeysFromSlice] gives the same result on
    a list of such strings when each is put in capitals or small letters. *)
Theorem X4_hex_letter_case `{External} (s : string) (l : list string) :
  first_non_hex s = None →
  Forall (λ t, first_non_hex t = None) l →
  parseSchnorPubKeyFromHex (ToUpper s) = parseSchnorPubKeyFromHex s
  ∧ parseSchnorPubKeyFromHex (ToLower s) = parseSchnorPubKeyFromHex s
  ∧ parseMagicBytesFromHex (ToUpper s) = parseMagicBytesFromHex s
  ∧ parseMagicBytesFromHex (ToLower s) = parseMagicBytesFromHex s
  ∧ parseCovenantKeysFromSlice (ToUpper <$> l) = parseCovenantKeysFromSlice l
  ∧ parseCovenantKeysFromSlice (ToLower <$> l) = parseCovenantKeysFromSlice l.
Proof.
  intros Hs Hl.
  assert (Hup : ∀ t, first_non_hex t = None →
                     parseSchnorPubKeyFromHex (ToUpper t) = parseSchnorPubKeyFromHex t).
  { intros t Ht. unfold parseSchnorPubKeyFromHex. by rewrite DecodeString_ToUpper. }
  assert (Hlo : ∀ t, first_non_hex t = None →
                     parseSchnorPubKeyFromHex (ToLower t) = parseSchnorPubKeyFromHex t).
  { intros t Ht. unfold parseSchnorPubKeyFromHex. by rewrite DecodeString_ToLower. }
  split; [by apply Hup|]. split; [by apply Hlo|].
  split; [unfold parseMagicBytesFromHex; by rewrite DecodeString_ToUpper|].
  split; [unfold parseMagicBytesFromHex; by rewrite DecodeString_ToLower|].
  unfold parseCovenantKeysFromSlice. rewrite !length_fmap. split.
  - apply parseCovenantKeysLoop_map. eapply Forall_impl; [exact Hl|]. exact Hup.
  - apply parseCovenantKeysLoop_map. eapply Forall_impl; [exact Hl|]. exact Hlo.
Qed.

Lemma X4_hex_letter_case_witness :
  parseSchnorPubKeyFromHex (H := Reference.reference_External) (ToUpper Sample.key_g)
  = parseSchnorPubKeyFromHex Sample.key_g
  ∧ parseMagicBytesFromHex (ToUpper "0a0b0c0d") = parseMagicBytesFromHex "0a0b0c0d"
  ∧ parseCovenantKeysFromSlice (H := Reference.reference_External)
      (ToUpper <$> [Sample.key_g; Sample.key_1])
    = parseCovenantKeysFromSlice [Sample.key_g; Sample.key_1].
Proof.
  destruct (X4_hex_letter_case (H := Reference.reference_External)
              Sample.key_g [Sample.key_g; Sample.key_1])
    as (Hkey & _ & _ & _ & Hcov & _).
  - reflexivity.
  - apply List.Forall_cons; [reflexivity|].
    apply List.Forall_cons; [reflexivity | apply List.Forall_nil].
  - destruct (X4_hex_letter_case (H := Reference.reference_External)
                "0a0b0c0d" []) as (_ & _ & Hmagic & _).
    + reflexivity.
    + apply List.Forall_nil.
    + split; [exact Hkey|]. split; [exact Hmagic | exact Hcov].
Defined.

(** X5. The bytes [parseMagicBytesFromHex] returns, written in hex with
    [hex.EncodeToString], are the input in small letters, and parsing that
    string gives the same bytes again. *)
Theorem X5_magic_bytes_round_trip (magicBytesHex : string) (bs : list byte) :
  parseMagicBytesFromHex magicBytesHex = Ok bs →
  hex.EncodeToString bs = ToLower magicBytesHex
  ∧ parseMagicBytesFromHex (hex.EncodeToString bs) = Ok bs.
Proof.
  unfold parseMagicBytesFromHex at 1.
  destruct (hex.DecodeString magicBytesHex) as [bs'|] eqn:Hdec; [|done].
  destruct (Nat.eqb_spec (length bs') MagicBytesLen) as [Hlen|]; [|done].
  simpl. intros [= <-]. split.
  - by apply EncodeToString_DecodeString.
  - unfold parseMagicBytesFromHex. rewrite DecodeString_EncodeToString.
    by destruct (Nat.eqb_spec (length bs') MagicBytesLen).
Qed.

Lemma X5_magic_bytes_round_trip_witness :
  hex.EncodeToString ["010"; "011"; "012"; "013"]%byte = ToLower "0A0b0C0d"
  ∧ parseMagicBytesFromHex (hex.EncodeToString ["010"; "011"; "012"; "013"]%byte)
    = Ok ["010"; "011"; "012"; "013"]%byte.
Proof.
  exact (X5_magic_bytes_round_trip "0A0b0C0d" ["010"; "011"; "012"; "013"]%byte eq_refl).
Defined.

(** ** The covenant key loop *)

Section CovenantLoop.
Context `{External}.

(** The indexed loop over the preallocated slice computes [parseKeys]. *)
Lemma parseCovenantKeysLoop_parseKeys (rest : list string) :
  ∀ done : list (option PublicKey),
    parseCovenantKeysLoop (length done) rest (done ++ replicate (length rest) None)
    = match parseKeys rest with
      | Err e => Err e
      | Ok ks => Ok (done ++ (Some <$> ks))
      end.
Proof.
  induction rest as [|s rest IH]; intros done.
  - simpl. by rewrite !app_nil_r.
  - rewrite parseCovenantKeysLoop_cons. simpl parseKeys.
    destruct (parseSchnorPubKeyFromHex s) as [k|e]; [|done].
    simpl length. simpl replicate.
    replace (length done) with (length done + 0)%nat at 2 by lia.
    rewrite insert_app_r. simpl.
    replace (done ++ Some k :: replicate (length rest) None)
      with ((done ++ [Some k]) ++ replicate (length rest) None)
      by (by rewrite <- app_assoc).
    replace (S (length done)) with (length (done ++ [Some k]))
      by (rewrite length_app; simpl; lia).
    rewrite IH. destruct (parseKeys rest) as [ks|e]; [|done].
    by rewrite <- app_assoc.
Qed.

Lemma parseCovenantKeysFromSlice_parseKeys (l : list string) :
  parseCovenantKeysFromSlice l
  = match parseKeys l with
    | Err e => Err e
    | Ok ks => Ok (Some <$> ks)
    end.
Proof.
  unfold parseCovenantKeysFromSlice.
  apply (parseCovenantKeysLoop_parseKeys l []).
Qed.

Lemma parseKeys_length (l : list string) (ks : list PublicKey) :
  parseKeys l = Ok ks → length ks = length l.
Proof.
  revert ks. induction l as [|s l IH]; intros ks; simpl.
  - by intros [= <-].
  - destruct (parseSchnorPubKeyFromHex s); [|done].
    destruct (parseKeys l) as [ks'|]; [|done].
    intros [= <-]. simpl. f_equal. by apply IH.
Qed.

(** A slice that is returned has the input's length and no nil entry. *)
Lemma parseCovenantKeysFromSlice_ok (l : list string) (cov : list (option PublicKey)) :
  parseCovenantKeysFromSlice l = Ok cov →
  length cov = length l ∧ None ∉ cov.
Proof.
  rewrite parseCovenantKeysFromSlice_parseKeys.
  destruct (parseKeys l) as [ks|] eqn:Hks; [|done].
  intros [= <-]. split.
  - rewrite length_fmap. by apply parseKeys_length.
  - intros Hin. apply list_elem_of_fmap in Hin as (k & Hk & _). done.
Qed.

End CovenantLoop.

(** X6. For every list of strings, [parseCovenantKeysFromSlice] returns
    what the plain recursion [parseKeys] returns: its keys, each behind a
    non-nil pointer, or its error.  So a slice that is returned never holds
    a nil pointer, it has as many entries as the input has strings, and the
    empty list gives the empty slice. *)
Theorem X6_covenant_keys_total `{External} (covenantMembersPks : list string) :
  parseCovenantKeysFromSlice covenantMembersPks
  = match parseKeys covenantMembersPks with
    | Err e => Err e
    | Ok ks => Ok (Some <$> ks)
    end
  ∧ (∀ cov, parseCovenantKeysFromSlice covenantMembersPks = Ok cov →
            length cov = length covenantMembersPks ∧ None ∉ cov)
  ∧ parseCovenantKeysFromSlice [] = Ok [].
Proof.
  split; [apply parseCovenantKeysFromSlice_parseKeys|].
  split; [apply parseCovenantKeysFromSlice_ok | reflexivity].
Qed.

(** ** The runs of the create and check commands *)

Section Runs.
Context `{External}.




(** The create command when a step before the library call fails. *)
Lemma create_steps_fail (ctx : Context) (e : error) :
  first_error (create_steps ctx) = Some e →
  createPhase1StakingTransaction ctx
  = ([CallGetBtcNetworkParams (ctx_String ctx networkNameFlag)], Err e).
Proof.
  unfold create_steps, createPhase1StakingTransaction.
  destruct (GetBtcNetworkParams _); simpl; [|congruence].
  destruct (parseSchnorPubKeyFromCliCtx ctx stakerPublicKeyFlag); simpl; [|congruence].
  destruct (parseSchnorPubKeyFromCliCtx ctx finalityProviderKeyFlag); simpl; [|congruence].
  destruct (parseStakingAmountFromCliCtx ctx); simpl; [|congruence].
  destruct (parseStakingTimeBlocksFromCliCtx ctx); simpl; [|congruence].
  destruct (parseMagicBytesFromCliCtx ctx); simpl; [|congruence].
  destruct (parseCovenantKeysFromCliCtx ctx); simpl; [discriminate|congruence].
Qed.

(** The create command when every step before the library call succeeds. *)
Lemma create_steps_pass (ctx : Context) (net : Params) (stakerPk fpPk : PublicKey)
    (amt tb : Z) (magicBytes : list byte) (cov : list (option PublicKey)) :
  GetBtcNetworkParams (ctx_String ctx networkNameFlag) = Ok net →
  parseSchnorPubKeyFromCliCtx ctx stakerPublicKeyFlag = Ok stakerPk →
  parseSchnorPubKeyFromCliCtx ctx finalityProviderKeyFlag = Ok fpPk →
  parseStakingAmountFromCliCtx ctx = Ok amt →
  parseStakingTimeBlocksFromCliCtx ctx = Ok tb →
  parseMagicBytesFromCliCtx ctx = Ok magicBytes →
  parseCovenantKeysFromCliCtx ctx = Ok cov →
  let q := uint32 (ctx_Uint64 ctx covenantQuorumFlag) in
  let lookup := CallGetBtcNetworkParams (ctx_String ctx networkNameFlag) in
  let build := CallBuildV0IdentifiableStakingOutputsAndTx magicBytes stakerPk fpPk
                 cov q tb amt net in
  createPhase1StakingTransaction ctx
  = match BuildV0IdentifiableStakingOutputsAndTx magicBytes stakerPk fpPk cov q tb amt net with
    | Err e => ([lookup; build], Err e)
    | Ok tx =>
        match SerializeBtcTransaction tx with
        | Err e => ([lookup; build; CallSerializeBtcTransaction tx], Err e)
        | Ok serializedTx =>
            ([lookup; build; CallSerializeBtcTransaction tx;
              PrintRespJSON {| StakingTxHex := hex.EncodeToString serializedTx |}],
             Ok tt)
        end
    end.
Proof.
  intros Hnet Hs Hf Ha Ht Hm Hc q lookup build.
  unfold createPhase1StakingTransaction, MakeCreatePhase1StakingTxResponse.
  rewrite Hnet, Hs, Hf, Ha, Ht, Hm, Hc. unfold_M. fold q.
  destruct (BuildV0IdentifiableStakingOutputsAndTx _ _ _ _ _ _ _ _) as [tx|]; [|done].
  by destruct (SerializeBtcTransaction tx).
Qed.

(** Either some step fails or all seven give their values. *)
Lemma create_steps_cases (ctx : Context) :
  (∃ e, first_error (create_steps ctx) = Some e)
  ∨ (∃ net stakerPk fpPk amt tb magicBytes cov,
       GetBtcNetworkParams (ctx_String ctx networkNameFlag) = Ok net
       ∧ parseSchnorPubKeyFromCliCtx ctx stakerPublicKeyFlag = Ok stakerPk
       ∧ parseSchnorPubKeyFromCliCtx ctx finalityProviderKeyFlag = Ok fpPk
       ∧ parseStakingAmountFromCliCtx ctx = Ok amt
       ∧ parseStakingTimeBlocksFromCliCtx ctx = Ok tb
       ∧ parseMagicBytesFromCliCtx ctx = Ok magicBytes
       ∧ parseCovenantKeysFromCliCtx ctx = Ok cov).
Proof.
  unfold create_steps.
  destruct (GetBtcNetworkParams _) as [net|]; [|left; simpl; eauto].
  destruct (parseSchnorPubKeyFromCliCtx ctx stakerPublicKeyFlag) as [spk|];
    [|left; simpl; eauto].
  destruct (parseSchnorPubKeyFromCliCtx ctx finalityProviderKeyFlag) as [fpk|];
    [|left; simpl; eauto].
  destruct (parseStakingAmountFromCliCtx ctx) as [amt|]; [|left; simpl; eauto].
  destruct (parseStakingTimeBlocksFromCliCtx ctx) as [tb|]; [|left; simpl; eauto].
  destruct (parseMagicBytesFromCliCtx ctx) as [mb|]; [|left; simpl; eauto].
  destruct (parseCovenantKeysFromCliCtx ctx) as [cov|]; [|left; simpl; eauto].
  right. by exists net, spk, fpk, amt, tb, mb, cov.
Qed.

(** The check command when a step before the library call fails. *)
Lemma check_steps_fail (ctx : Context) (e : error) :
  first_error (check_steps ctx) = Some e →
  checkPhase1StakingTransaction ctx
  = (match GetBtcNetworkParams (ctx_String ctx networkNameFlag) with
     | Err _ => [CallGetBtcNetworkParams (ctx_String ctx networkNameFlag)]
     | Ok _ => [CallGetBtcNetworkParams (ctx_String ctx networkNameFlag);
                CallNewBTCTxFromHex (ctx_String ctx stakingTransactionFlag)]
     end, Err e).
Proof.
  unfold check_steps, checkPhase1StakingTransaction.
  destruct (GetBtcNetworkParams _); simpl; [|congruence].
  destruct (NewBTCTxFromHex _); simpl; [|congruence].
  destruct (parseMagicBytesFromCliCtx ctx); simpl; [|congruence].
  destruct (parseCovenantKeysFromCliCtx ctx); simpl; [discriminate|congruence].
Qed.

(** The check command when every step before the library call succeeds. *)
Lemma check_steps_pass (ctx : Context) (net : Params) (tx : MsgTx)
    (magicBytes : list byte) (cov : list (option PublicKey)) :
  GetBtcNetworkParams (ctx_String ctx networkNameFlag) = Ok net →
  NewBTCTxFromHex (ctx_String ctx stakingTransactionFlag) = Ok tx →
  parseMagicBytesFromCliCtx ctx = Ok magicBytes →
  parseCovenantKeysFromCliCtx ctx = Ok cov →
  let q := uint32 (ctx_Uint64 ctx covenantQuorumFlag) in
  let lookup := CallGetBtcNetworkParams (ctx_String ctx networkNameFlag) in
  let decode := CallNewBTCTxFromHex (ctx_String ctx stakingTransactionFlag) in
  let parse := CallParseV0StakingTx tx magicBytes cov q net in
  checkPhase1StakingTransaction ctx
  = match ParseV0StakingTx tx magicBytes cov q net with
    | Err e => ([lookup; decode; parse], Err e)
    | Ok _ =>
        ([lookup; decode; parse;
          Println "Provided transaction is valid staking transaction!"], Ok tt)
    end.
Proof.
  intros Hnet Htx Hm Hc q lookup decode parse.
  unfold checkPhase1StakingTransaction.
  rewrite Hnet, Htx, Hm, Hc. unfold_M. fold q.
  by destruct (ParseV0StakingTx _ _ _ _ _).
Qed.

Lemma check_steps_cases (ctx : Context) :
  (∃ e, first_error (check_steps ctx) = Some e)
  ∨ (∃ net tx magicBytes cov,
       GetBtcNetworkParams (ctx_String ctx networkNameFlag) = Ok net
       ∧ NewBTCTxFromHex (ctx_String ctx stakingTransactionFlag) = Ok tx
       ∧ parseMagicBytesFromCliCtx ctx = Ok magicBytes
       ∧ parseCovenantKeysFromCliCtx ctx = Ok cov).
Proof.
  unfold check_steps.
  destruct (GetBtcNetworkParams _) as [net|]; [|left; simpl; eauto].
  destruct (NewBTCTxFromHex _) as [tx|]; [|left; simpl; eauto].
  destruct (parseMagicBytesFromCliCtx ctx) as [mb|]; [|left; simpl; eauto].
  destruct (parseCovenantKeysFromCliCtx ctx) as [cov|]; [|left; simpl; eauto].
  right. by exists net, tx, mb, cov.
Qed.

End Runs.

Section Calls.
Context `{External}.



End Calls.

(** X7. When the network lookup and the six parsers of the create command
    succeed, its run is decided by the library: if the builder fails, the
    command returns the builder's error unchanged after the lookup and the
    one builder call, without serializing or printing; if the serializer
    fails, it returns that error and prints nothing; otherwise it prints the
    hex of the serialized bytes as its last step and returns nil. *)
Theorem X7_create_run `{External} (ctx : Context) (net : Params)
    (stakerPk fpPk : PublicKey) (amt tb : Z) (magicBytes : list byte)
    (cov : list (option PublicKey)) :
  GetBtcNetworkParams (ctx_String ctx networkNameFlag) = Ok net →
  parseSchnorPubKeyFromCliCtx ctx stakerPublicKeyFlag = Ok stakerPk →
  parseSchnorPubKeyFromCliCtx ctx finalityProviderKeyFlag = Ok fpPk →
  parseStakingAmountFromCliCtx ctx = Ok amt →
  parseStakingTimeBlocksFromCliCtx ctx = Ok tb →
  parseMagicBytesFromCliCtx ctx = Ok magicBytes →
  parseCovenantKeysFromCliCtx ctx = Ok cov →
  let q := uint32 (ctx_Uint64 ctx covenantQuorumFlag) in
  let lookup := CallGetBtcNetworkParams (ctx_String ctx networkNameFlag) in
  let build := CallBuildV0IdentifiableStakingOutputsAndTx magicBytes stakerPk fpPk
                 cov q tb amt net in
  createPhase1StakingTransaction ctx
  = match BuildV0IdentifiableStakingOutputsAndTx magicBytes stakerPk fpPk cov q tb amt net with
    | Err e => ([lookup; build], Err e)
    | Ok tx =>
        match SerializeBtcTransaction tx with
        | Err e => ([lookup; build; CallSerializeBtcTransaction tx], Err e)
        | Ok serializedTx =>
            ([lookup; build; CallSerializeBtcTransaction tx;
              PrintRespJSON {| StakingTxHex := hex.EncodeToString serializedTx |}],
             Ok tt)
        end
    end.
Proof.
  intros Hnet Hs Hf Ha Ht Hm Hc q lookup build.
  unfold createPhase1StakingTransaction, MakeCreatePhase1StakingTxResponse.
  rewrite Hnet, Hs, Hf, Ha, Ht, Hm, Hc. unfold_M. fold q.
  destruct (BuildV0IdentifiableStakingOutputsAndTx _ _ _ _ _ _ _ _) as [tx|];
    [|reflexivity].
  destruct (SerializeBtcTransaction tx); reflexivity.
Qed.

Lemma X7_create_run_witness :
  createPhase1StakingTransaction (H := Reference.reference_External) Inputs.quorum_five
  = ([CallGetBtcNetworkParams "regtest";
      CallBuildV0IdentifiableStakingOutputsAndTx (H := Reference.reference_External)
        ["001"; "002"; "003"; "004"]%byte
        Sample.point_g Sample.point_1 Inputs.covenant 5 100 10000 RegressionNetParams],
     Err (LibError "invalid covenant quorum")).
Proof.
  exact (X7_create_run (H := Reference.reference_External) Inputs.quorum_five
           RegressionNetParams Sample.point_g Sample.point_1 10000 100
           ["001"; "002"; "003"; "004"]%byte Inputs.covenant
           ltac:(vm_compute; reflexivity) ltac:(vm_compute; reflexivity)
           ltac:(vm_compute; reflexivity) ltac:(vm_compute; reflexivity)
           ltac:(vm_compute; reflexivity) ltac:(vm_compute; reflexivity)
           ltac:(vm_compute; reflexivity)).
Defined.

(** X8. When the network lookup, the transaction decoding and the two
    parsers of the check command succeed, its run is decided by the
    verifier: if it fails, the command returns its error unchanged and
    prints nothing; otherwise the command prints the success line as its
    last step and returns nil.  The verifier is called once, after the
    lookup and the decoding. *)
Theorem X8_check_run `{External} (ctx : Context) (net : Params) (tx : MsgTx)
    (magicBytes : list byte) (cov : list (option PublicKey)) :
  GetBtcNetworkParams (ctx_String ctx networkNameFlag) = Ok net →
  NewBTCTxFromHex (ctx_String ctx stakingTransactionFlag) = Ok tx →
  parseMagicBytesFromCliCtx ctx = Ok magicBytes →
  parseCovenantKeysFromCliCtx ctx = Ok cov →
  let q := uint32 (ctx_Uint64 ctx covenantQuorumFlag) in
  let lookup := CallGetBtcNetworkParams (ctx_String ctx networkNameFlag) in
  let decode := CallNewBTCTxFromHex (ctx_String ctx stakingTransactionFlag) in
  let parse := CallParseV0StakingTx tx magicBytes cov q net in
  checkPhase1StakingTransaction ctx
  = match ParseV0StakingTx tx magicBytes cov q net with
    | Err e => ([lookup; decode; parse], Err e)
    | Ok _ =>
        ([lookup; decode; parse;
          Println "Provided transaction is valid staking transaction!"], Ok tt)
    end.
Proof.
  intros Hnet Htx Hm Hc q lookup decode parse.
  unfold checkPhase1StakingTransaction.
  rewrite Hnet, Htx, Hm, Hc. unfold_M. fold q.
  destruct (ParseV0StakingTx _ _ _ _ _); reflexivity.
Qed.

Lemma X8_check_run_witness :
  checkPhase1StakingTransaction (H := Reference.reference_External) Inputs.check_short
  = ([CallGetBtcNetworkParams "regtest";
      CallNewBTCTxFromHex "0102";
      CallParseV0StakingTx (H := Reference.reference_External)
        ["001"; "002"]%byte ["001"; "002"; "003"; "004"]%byte
        Inputs.covenant 2 RegressionNetParams],
     Err (LibError "unexpected magic bytes")).
Proof.
  exact (X8_check_run (H := Reference.reference_External) Inputs.check_short
           RegressionNetParams ["001"; "002"]%byte
           ["001"; "002"; "003"; "004"]%byte Inputs.covenant
           ltac:(vm_compute; reflexivity) ltac:(vm_compute; reflexivity)
           ltac:(vm_compute; reflexivity) ltac:(vm_compute; reflexivity)).
Defined.

(** ** What reaches the staking library *)







(** ** Output and calls of a run *)

(** X11. A command prints exactly when it returns nil.  The create command
    returns nil if and only if its trace holds an output event, and then its
    last event is the printed response; the check command returns nil if and
    only if its last event is the success line; a run that fails prints
    nothing. *)
Theorem X11_prints_iff_success `{External} (ctx : Context) :
  (outcome (createPhase1StakingTransaction ctx) = Ok tt
   ↔ ∃ ev, ev ∈ trace (createPhase1StakingTransaction ctx) ∧ is_output ev = true)
  ∧ (outcome (createPhase1StakingTransaction ctx) = Ok tt
     ↔ ∃ resp, last (trace (createPhase1StakingTransaction ctx))
               = Some (PrintRespJSON resp))
  ∧ (outcome (checkPhase1StakingTransaction ctx) = Ok tt
     ↔ ∃ ev, ev ∈ trace (checkPhase1StakingTransaction ctx) ∧ is_output ev = true)
  ∧ (outcome (checkPhase1StakingTransaction ctx) = Ok tt
     ↔ last (trace (checkPhase1StakingTransaction ctx))
       = Some (Println "Provided transaction is valid staking transaction!")).
Proof.
  assert (Hcreate :
            (outcome (createPhase1StakingTransaction ctx) = Ok tt
             ∧ (∃ resp, last (trace (createPhase1StakingTransaction ctx))
                        = Some (PrintRespJSON resp)))
            ∨ (outcome (createPhase1StakingTransaction ctx) ≠ Ok tt
               ∧ ∀ ev, ev ∈ trace (createPhase1StakingTransaction ctx) →
                       is_output ev = false)).
  { destruct (create_steps_cases ctx) as [[e He] | Hpass].
    - right. rewrite (create_steps_fail ctx e He). split; [done|].
      intros ev Hev. unfold trace in Hev; simpl in Hev. elem_cases Hev. done.
    - destruct Hpass as (net & spk & fpk & amt & tb & mb & cov &
                         Hnet & Hs & Hf & Ha & Ht & Hm & Hc).
      rewrite (create_steps_pass ctx _ _ _ _ _ _ _ Hnet Hs Hf Ha Ht Hm Hc). cbv zeta.
      destruct (BuildV0IdentifiableStakingOutputsAndTx _ _ _ _ _ _ _ _) as [tx|];
        [destruct (SerializeBtcTransaction tx) as [bytes|]|].
      + left. split; [done|]. by eexists.
      + right. split; [done|]. intros ev Hev. unfold trace in Hev; simpl in Hev.
        elem_cases Hev; done.
      + right. split; [done|]. intros ev Hev. unfold trace in Hev; simpl in Hev.
        elem_cases Hev; done. }
  assert (Hcheck :
            (outcome (checkPhase1StakingTransaction ctx) = Ok tt
             ∧ last (trace (checkPhase1StakingTransaction ctx))
               = Some (Println "Provided transaction is valid staking transaction!"))
            ∨ (outcome (checkPhase1StakingTransaction ctx) ≠ Ok tt
               ∧ ∀ ev, ev ∈ trace (checkPhase1StakingTransaction ctx) →
                       is_output ev = false)).
  { destruct (check_steps_cases ctx) as [[e He] | Hpass].
    - right. rewrite (check_steps_fail ctx e He). split; [done|].
      intros ev Hev. unfold trace in Hev; simpl in Hev.
      destruct (GetBtcNetworkParams _); elem_cases Hev; done.
    - destruct Hpass as (net & tx & mb & cov & Hnet & Htx & Hm & Hc).
      rewrite (check_steps_pass ctx _ _ _ _ Hnet Htx Hm Hc). cbv zeta.
      destruct (ParseV0StakingTx _ _ _ _ _) as [[]|].
      + left. done.
      + right. split; [done|]. intros ev Hev. unfold trace in Hev; simpl in Hev.
        elem_cases Hev; done. }
  assert (Hlast : ∀ (t : list Event) ev, last t = Some ev → ev ∈ t).
  { intros t ev Hl. apply last_Some in Hl as [t' ->].
    apply elem_of_app. right. apply list_elem_of_here. }
  split; [|split; [|split]].
  - split.
    + intros Hok. destruct Hcreate as [[_ [resp Hl]] | [Hne _]]; [|done].
      exists (PrintRespJSON resp). split; [by apply Hlast | done].
    + intros (ev & Hev & Hout). destruct Hcreate as [[Hok _] | [_ Hno]]; [done|].
      by rewrite (Hno ev Hev) in Hout.
  - split.
    + intros Hok. by destruct Hcreate as [[_ Hl] | [Hne _]].
    + intros [resp Hl]. destruct Hcreate as [[Hok _] | [_ Hno]]; [done|].
      pose proof (Hno _ (Hlast _ _ Hl)). done.
  - split.
    + intros Hok. destruct Hcheck as [[_ Hl] | [Hne _]]; [|done].
      eexists. split; [by apply Hlast | done].
    + intros (ev & Hev & Hout). destruct Hcheck as [[Hok _] | [_ Hno]]; [done|].
      by rewrite (Hno ev Hev) in Hout.
  - split.
    + intros Hok. by destruct Hcheck as [[_ Hl] | [Hne _]].
    + intros Hl. destruct Hcheck as [[Hok _] | [_ Hno]]; [done|].
      pose proof (Hno _ (Hlast _ _ Hl)). done.
Qed.

(** X12. The staking library is called once when the steps before it pass
    and never otherwise.  If a step fails, the trace of either command holds
    no library call and the command returns that step's error.  If none
    fails, the trace holds exactly one library call, and the command returns
    what the library function returns on the arguments that call carries:
    for create the builder's error, else the serializer's, else nil; for
    check the verifier's answer.  The create command makes lookup, builder,
    serializer and response events only, so it never calls the verifier or
    the transaction decoder; the check command makes lookup, decoder,
    verifier and line events only, so it never calls the builder or the
    serializer. *)
Theorem X12_call_discipline `{External} (ctx : Context) :
  library_calls (trace (createPhase1StakingTransaction ctx))
  = match first_error (create_steps ctx) with Some _ => 0 | None => 1 end%nat
  ∧ library_calls (trace (checkPhase1StakingTransaction ctx))
    = match first_error (check_steps ctx) with Some _ => 0 | None => 1 end%nat
  ∧ forallb is_create_event (trace (createPhase1StakingTransaction ctx)) = true
  ∧ forallb is_check_event (trace (checkPhase1StakingTransaction ctx)) = true
  ∧ match first_error (create_steps ctx) with
    | Some e => outcome (createPhase1StakingTransaction ctx) = Err e
    | None =>
        ∃ magicBytes stakerPk fpPk cov q tb amt net,
          List.filter is_staking_library_call (trace (createPhase1StakingTransaction ctx))
          = [CallBuildV0IdentifiableStakingOutputsAndTx magicBytes stakerPk fpPk cov
               q tb amt net]
          ∧ outcome (createPhase1StakingTransaction ctx)
            = match BuildV0IdentifiableStakingOutputsAndTx magicBytes stakerPk fpPk cov
                      q tb amt net with
              | Err e => Err e
              | Ok tx =>
                  match SerializeBtcTransaction tx with
                  | Err e => Err e
                  | Ok _ => Ok tt
                  end
              end
    end
  ∧ match first_error (check_steps ctx) with
    | Some e => outcome (checkPhase1StakingTransaction ctx) = Err e
    | None =>
        ∃ tx magicBytes cov q net,
          List.filter is_staking_library_call (trace (checkPhase1StakingTransaction ctx))
          = [CallParseV0StakingTx tx magicBytes cov q net]
          ∧ outcome (checkPhase1StakingTransaction ctx)
            = ParseV0StakingTx tx magicBytes cov q net
    end.
Proof.
  assert (Hcreate :
            library_calls (trace (createPhase1StakingTransaction ctx))
            = match first_error (create_steps ctx) with Some _ => 0 | None => 1 end%nat
            ∧ forallb is_create_event (trace (createPhase1StakingTransaction ctx)) = true
            ∧ match first_error (create_steps ctx) with
              | Some e => outcome (createPhase1StakingTransaction ctx) = Err e
              | None =>
                  ∃ magicBytes stakerPk fpPk cov q tb amt net,
                    List.filter is_staking_library_call
                      (trace (createPhase1StakingTransaction ctx))
                    = [CallBuildV0IdentifiableStakingOutputsAndTx magicBytes stakerPk fpPk
                         cov q tb amt net]
                    ∧ outcome (createPhase1StakingTransaction ctx)
                      = match BuildV0IdentifiableStakingOutputsAndTx magicBytes stakerPk
                                fpPk cov q tb amt net with
                        | Err e => Err e
                        | Ok tx =>
                            match SerializeBtcTransaction tx with
                            | Err e => Err e
                            | Ok _ => Ok tt
                            end
                        end
              end).
  { destruct (create_steps_cases ctx) as [[e He] | Hpass].
    - rewrite (create_steps_fail ctx e He), He. done.
    - destruct Hpass as (net & spk & fpk & amt & tb & mb & cov &
                         Hnet & Hs & Hf & Ha & Ht & Hm & Hc).
      rewrite (create_steps_pass ctx _ _ _ _ _ _ _ Hnet Hs Hf Ha Ht Hm Hc). cbv zeta.
      unfold create_steps. rewrite Hnet, Hs, Hf, Ha, Ht, Hm, Hc.
      cbn [error_of first_error].
      split; [|split].
      + destruct (BuildV0IdentifiableStakingOutputsAndTx _ _ _ _ _ _ _ _) as [tx|];
          [destruct (SerializeBtcTransaction tx)|]; done.
      + destruct (BuildV0IdentifiableStakingOutputsAndTx _ _ _ _ _ _ _ _) as [tx|];
          [destruct (SerializeBtcTransaction tx)|]; done.
      + exists mb, spk, fpk, cov, (uint32 (ctx_Uint64 ctx covenantQuorumFlag)), tb, amt, net.
        destruct (BuildV0IdentifiableStakingOutputsAndTx _ _ _ _ _ _ _ _) as [tx|];
          [destruct (SerializeBtcTransaction tx)|]; done. }
  assert (Hcheck :
            library_calls (trace (checkPhase1StakingTransaction ctx))
            = match first_error (check_steps ctx) with Some _ => 0 | None => 1 end%nat
            ∧ forallb is_check_event (trace (checkPhase1StakingTransaction ctx)) = true
            ∧ match first_error (check_steps ctx) with
              | Some e => outcome (checkPhase1StakingTransaction ctx) = Err e
              | None =>
                  ∃ tx magicBytes cov q net,
                    List.filter is_staking_library_call
                      (trace (checkPhase1StakingTransaction ctx))
                    = [CallParseV0StakingTx tx magicBytes cov q net]
                    ∧ outcome (checkPhase1StakingTransaction ctx)
                      = ParseV0StakingTx tx magicBytes cov q net
              end).
  { destruct (check_steps_cases ctx) as [[e He] | Hpass].
    - rewrite (check_steps_fail ctx e He), He.
      by destruct (GetBtcNetworkParams _).
    - destruct Hpass as (net & tx & mb & cov & Hnet & Htx & Hm & Hc).
      rewrite (check_steps_pass ctx _ _ _ _ Hnet Htx Hm Hc). cbv zeta.
      unfold check_steps. rewrite Hnet, Htx, Hm, Hc.
      cbn [error_of first_error].
      split; [|split].
      + by destruct (ParseV0StakingTx _ _ _ _ _).
      + by destruct (ParseV0StakingTx _ _ _ _ _).
      + exists tx, mb, cov, (uint32 (ctx_Uint64 ctx covenantQuorumFlag)), net.
        by destruct (ParseV0StakingTx _ _ _ _ _) as [[]|]. }
  destruct Hcreate as (? & ? & ?), Hcheck as (? & ? & ?). done.
Qed.

(** ** The failures of the JSON command before decoding *)

Lemma prefix_append (p b : string) : String.prefix p (p +:+ b) = true.
Proof.
  induction p as [|c p IH]; simpl; [by destruct b|].
  by destruct (ascii_dec c c).
Qed.

Lemma mentions_prefix (p b : string) : mentions p (p +:+ b) = true.
Proof.
  unfold mentions. pose proof (prefix_append p b) as Hp.
  destruct (p +:+ b) as [|c s] eqn:Hs.
  - destruct p; [done | discriminate].
  - simpl. simpl in Hp. by rewrite Hp.
Qed.

Lemma mentions_append_r (p a s : string) :
  mentions p s = true → mentions p (a +:+ s) = true.
Proof.
  unfold mentions. intros Hs. induction a as [|c a IH]; [done|].
  change (String c a +:+ s) with (String c (a +:+ s)).
  change (String.index 0 p (String c (a +:+ s)))
    with (if String.prefix p (String c (a +:+ s)) then Some 0%nat
          else match String.index 0 p (a +:+ s) with
               | Some n => Some (S n)
               | None => None
               end).
  destruct (String.prefix p (String c (a +:+ s))); [done|].
  revert IH. by destruct (String.index 0 p (a +:+ s)).
Qed.

Lemma append_empty_r (p : string) : p +:+ EmptyString = p.
Proof.
  induction p as [|c p IH]; [done|].
  change (String c (p +:+ EmptyString) = String c p). congruence.
Qed.

Lemma mentions_self (p : string) : mentions p p = true.
Proof.
  pose proof (mentions_prefix p EmptyString) as Hp.
  by rewrite append_empty_r in Hp.
Qed.

(** X13. The JSON command fails before it decodes anything in three
    cases.  With no path, or the empty path, the error is "json file input
    is empty" whatever the file system holds.  With a path that names no
    existing file the error says that the file does not exist and names the
    path.  With a file that cannot be read the error wraps the reader's
    error and its message names both the path and the reader's message.  In
    all three nothing is printed and no call is made. *)
Theorem X13_json_file_errors `{JsonInput} (ctx : Context) :
  (Args ctx = [] ∨ ctx_Args_First ctx = EmptyString →
   createPhase1StakingTransactionFromJson ctx
   = ([], Err (Errorf "json file input is empty")))
  ∧ (ctx_Args_First ctx ≠ EmptyString →
     os_FileExists (ctx_Args_First ctx) = false →
     createPhase1StakingTransactionFromJson ctx
     = ([], Err (Errorf ("json file input " +:+ ctx_Args_First ctx +:+ " does not exist")))
     ∧ mentions (ctx_Args_First ctx)
         ("json file input " +:+ ctx_Args_First ctx +:+ " does not exist") = true)
  ∧ (ctx_Args_First ctx ≠ EmptyString →
     os_FileExists (ctx_Args_First ctx) = true →
     ∀ err, os_ReadFile (ctx_Args_First ctx) = Err err →
            ∃ msg, createPhase1StakingTransactionFromJson ctx = ([], Err (Wrapf msg err))
                   ∧ mentions (ctx_Args_First ctx) msg = true
                   ∧ mentions (Error err) msg = true).
Proof.
  unfold createPhase1StakingTransactionFromJson. split; [|split].
  - intros Hempty.
    assert (Hpath : ctx_Args_First ctx = EmptyString).
    { destruct Hempty as [Hargs|]; [|done]. unfold ctx_Args_First. by rewrite Hargs. }
    by rewrite Hpath.
  - intros Hne Hex. rewrite (nonempty_length _ Hne), Hex. simpl. split; [done|].
    apply mentions_append_r, mentions_prefix.
  - intros Hne Hex err Hrd. rewrite (nonempty_length _ Hne), Hex, Hrd. simpl.
    eexists. split; [reflexivity|]. split.
    + apply mentions_append_r, mentions_prefix.
    + do 3 apply mentions_append_r. apply mentions_self.
Qed.

Example json_command_missing_file :
  outcome (createPhase1StakingTransactionFromJson
             (H0 := Reference.reference_JsonInput Sample.files)
             (Sample.json_command "none.json"))
  = Err (Errorf "json file input none.json does not exist").
Proof. vm_compute. reflexivity. Qed.

Lemma X13_json_file_errors_witness :
  createPhase1StakingTransactionFromJson
    (H0 := Reference.reference_JsonInput Sample.files) no_flags
  = ([], Err (Errorf "json file input is empty"))
  ∧ createPhase1StakingTransactionFromJson
      (H0 := Reference.reference_JsonInput Sample.files) (Sample.json_command "none.json")
    = ([], Err (Errorf ("json file input "
                          +:+ ctx_Args_First (Sample.json_command "none.json")
                          +:+ " does not exist"))).
Proof.
  destruct (X13_json_file_errors (H0 := Reference.reference_JsonInput Sample.files)
              no_flags) as (Hempty & _).
  destruct (X13_json_file_errors (H0 := Reference.reference_JsonInput Sample.files)
              (Sample.json_command "none.json")) as (_ & Hmissing & _).
  split.
  - apply Hempty. left. reflexivity.
  - apply Hmissing; [discriminate | reflexivity].
Defined.

(** ** Requests of the RPC client *)

(** X14. [Stake] checks nothing itself: whatever the address, the amount,
    the key and the staking time are, zero and negative numbers and empty
    strings too, it applies the transport to one request and returns the
    transport's answer, so over the transport that answers a request with
    itself it returns that request and never an error.  The request has the
    method "stake" and exactly the four fields stakerAddress, stakingAmount,
    validatorPk and stakingTimeBlocks, each holding the argument as given,
    and two calls send the same request only when their arguments are the
    same. *)
Theorem X14_stake_request {Reply : Type} (Call : client.Request → result Reply)
    (stakerAddress : string) (stakingAmount : Z) (validatorPk : string)
    (stakingTimeBlocks : Z) :
  ∃ req,
    client.Stake Call stakerAddress stakingAmount validatorPk stakingTimeBlocks
    = (req, Call req)
    ∧ (client.Stake echo stakerAddress stakingAmount validatorPk stakingTimeBlocks).2
      = Ok req
    ∧ client.method req = "stake"%string
    ∧ client.params req !! "stakerAddress" = Some (client.Str stakerAddress)
    ∧ client.params req !! "stakingAmount" = Some (client.Int64 stakingAmount)
    ∧ client.params req !! "validatorPk" = Some (client.Str validatorPk)
    ∧ client.params req !! "stakingTimeBlocks" = Some (client.Int64 stakingTimeBlocks)
    ∧ dom (client.params req)
      = ({["stakerAddress"; "stakingAmount"; "validatorPk"; "stakingTimeBlocks"]}
           : gset string)
    ∧ ∀ (stakerAddress' : string) (stakingAmount' : Z) (validatorPk' : string)
        (stakingTimeBlocks' : Z),
        (client.Stake echo stakerAddress' stakingAmount' validatorPk'
           stakingTimeBlocks').2 = Ok req →
        stakerAddress' = stakerAddress ∧ stakingAmount' = stakingAmount
        ∧ validatorPk' = validatorPk ∧ stakingTimeBlocks' = stakingTimeBlocks.
Proof.
  assert (Hid : ∀ (R : Type) (r : result R),
            match r with Err err => Err err | Ok result => Ok result end = r)
    by (by intros R []).
  assert (Hlookups : ∀ (a : string) (m : Z) (p : string) (t : Z),
            let params := client.params (client.Stake echo a m p t).1 in
            params !! "stakerAddress" = Some (client.Str a)
            ∧ params !! "stakingAmount" = Some (client.Int64 m)
            ∧ params !! "validatorPk" = Some (client.Str p)
            ∧ params !! "stakingTimeBlocks" = Some (client.Int64 t)).
  { intros a m p t. simpl.
    split; [do 3 (rewrite lookup_insert_ne by done); by rewrite lookup_insert_eq|].
    split; [do 2 (rewrite lookup_insert_ne by done); by rewrite lookup_insert_eq|].
    split; [rewrite lookup_insert_ne by done; by rewrite lookup_insert_eq|].
    by rewrite lookup_insert_eq. }
  eexists. split; [unfold client.Stake; rewrite Hid; reflexivity|].
  destruct (Hlookups stakerAddress stakingAmount validatorPk stakingTimeBlocks)
    as (Ha & Hm & Hp & Ht).
  split; [reflexivity|]. split; [reflexivity|].
  split; [exact Ha|]. split; [exact Hm|]. split; [exact Hp|]. split; [exact Ht|].
  split; [simpl; rewrite !dom_insert_L, dom_empty_L; set_solver|].
  intros a' m' p' t' Hsame.
  destruct (Hlookups a' m' p' t') as (Ha' & Hm' & Hp' & Ht').
  assert (Hreq : (client.Stake echo a' m' p' t').1
                 = (client.Stake echo stakerAddress stakingAmount validatorPk
                      stakingTimeBlocks).1).
  { unfold client.Stake, echo in Hsame |- *. simpl in Hsame |- *. congruence. }
  cbv zeta in Ha', Hm', Hp', Ht'. rewrite Hreq in Ha', Hm', Hp', Ht'.
  cbv zeta in Ha, Hm, Hp, Ht.
  rewrite Ha in Ha'. rewrite Hm in Hm'. rewrite Hp in Hp'. rewrite Ht in Ht'.
  injection Ha' as ->. injection Hm' as ->. injection Hp' as ->. injection Ht' as ->.
  done.
Qed.

(** X15. [BabylonValidators] and [ListStakingTransactions] share one
    pagination convention: for the same offset and limit they send the same
    parameter object, whose fields are exactly the arguments that are given,
    under different method names. *)
Theorem X15_pagination {Reply : Type} (Call : client.Request → result Reply)
    (offset limit : option Z) :
  client.params (client.BabylonValidators Call offset limit).1
  = client.params (client.ListStakingTransactions Call offset limit).1
  ∧ dom (client.params (client.BabylonValidators Call offset limit).1)
    = ((match offset with Some _ => {["offset"]} | None => ∅ end)
       ∪ (match limit with Some _ => {["limit"]} | None => ∅ end) : gset string)
  ∧ client.params (client.BabylonValidators Call offset limit).1 !! "offset"
    = (λ _, client.IntPtr offset) <$> offset
  ∧ client.params (client.BabylonValidators Call offset limit).1 !! "limit"
    = (λ _, client.IntPtr limit) <$> limit
  ∧ client.method (client.BabylonValidators Call offset limit).1
    ≠ client.method (client.ListStakingTransactions Call offset limit).1.
Proof.
  split; [reflexivity|].
  destruct offset as [o|], limit as [l|]; simpl.
  all: rewrite ?dom_insert_L, ?dom_empty_L.
  all: split; [set_solver|].
  all: rewrite ?lookup_insert_eq, ?lookup_empty.
  all: try (rewrite lookup_insert_ne by done; rewrite ?lookup_insert_eq, ?lookup_empty).
  all: done.
Qed.

(** Each of the five calls sends one request and returns what the
    transport answered to it: the transport's error unchanged, or its
    result.  [Health] and [ListOutputs] send an empty parameter object, and
    the five method names are health, list_outputs, babylon_validators,
    stake and list_staking_transactions, no two of them equal. *)
Lemma client_calls_are_transparent {Reply : Type} (Call : client.Request → result Reply)
    (offset limit : option Z) (stakerAddress validatorPk : string)
    (stakingAmount stakingTimeBlocks : Z) :
  (client.Health Call).2 = Call (client.Health Call).1
  ∧ (client.ListOutputs Call).2 = Call (client.ListOutputs Call).1
  ∧ (client.BabylonValidators Call offset limit).2
    = Call (client.BabylonValidators Call offset limit).1
  ∧ (client.Stake Call stakerAddress stakingAmount validatorPk stakingTimeBlocks).2
    = Call (client.Stake Call stakerAddress stakingAmount validatorPk stakingTimeBlocks).1
  ∧ (client.ListStakingTransactions Call offset limit).2
    = Call (client.ListStakingTransactions Call offset limit).1
  ∧ (client.Health Call).1 = {| client.method := "health"; client.params := ∅ |}
  ∧ (client.ListOutputs Call).1 = {| client.method := "list_outputs"; client.params := ∅ |}
  ∧ NoDup
      [client.method (client.Health Call).1;
       client.method (client.ListOutputs Call).1;
       client.method (client.BabylonValidators Call offset limit).1;
       client.method
         (client.Stake Call stakerAddress stakingAmount validatorPk stakingTimeBlocks).1;
       client.method (client.ListStakingTransactions Call offset limit).1].
Proof.
  assert (Hid : ∀ r : result Reply,
            match r with Err err => Err err | Ok result => Ok result end = r)
    by (by intros []).
  repeat split; try (simpl; apply Hid).
  simpl. by apply (bool_decide_unpack _).
Qed.

(** ** The two commands on the same flags *)


